(** * Spoolman integration (moonraker/components/spoolman.py)

    A shallow embedding of the [SpoolManager] component: the usage
    accumulator fed by toolhead position updates, the flush of pending usage
    to the Spoolman server, the selection of the active spool, the decoder of
    websocket events, the liveness check of the selected spool and the proxy
    endpoint.

    Conventions of the embedding.
    - A Python [float] is a binary64 number: the kernel's primitive floats,
      with the very operations ([+], [-], [>], [==]) the interpreter applies.
    - A coroutine is a computation in the monad [M]: it reads and writes the
      fields of [self], may raise, and appends to a trace of the calls it
      makes on its collaborators (logging, HTTP client, database, event
      sender, event loop).  A coroutine runs to completion in one piece,
      and calls run one after another.  What is stated of the accumulator
      over several status updates is stated for updates handled that way:
      the source tests a sample against the highest position before it
      waits for [extruded_lock], so an update that starts while another
      coroutine holds the lock is outside these statements; what the
      accumulator does then is [waiting_updates].
    - [eventloop.create_task] is the trace entry [CreateTask]: the task is
      recorded, not run; [run_task] runs it later.
    - The answer of the Spoolman server to a request is the parameter
      [remote] of the operations that issue one. *)

From Stdlib Require Import ZArith Bool List Floats Ascii.
From stdpp Require Import base option gmap strings list pretty.
Import ListNotations.

Local Open Scope string_scope.
Local Open Scope Z_scope.
#[local] Set Warnings "-register-all".

(** ** Python values *)

(** The value of a decoded JSON document, as [json.loads] builds it: an
    object is a [dict] keyed by strings, a number is an [int] or a [float]. *)
Inductive json : Type :=
| JNull
| JBool (b : bool)
| JInt (n : Z)
| JFloat (f : float)
| JStr (s : string)
| JList (l : list json)
| JDict (d : gmap string json).

(** [float == int] in Python compares the exact values.  A finite binary64
    number is [(-1)^s * m * 2^e]. *)
Definition float_eq_int (f : float) (n : Z) : bool :=
  match Prim2SF f with
  | S754_zero _ => n =? 0
  | S754_finite s m e =>
      let mag := if s then - Z.pos m else Z.pos m in
      if 0 <=? e then n =? mag * 2 ^ e
      else (Z.pos m mod 2 ^ (- e) =? 0) && (n * 2 ^ (- e) =? mag)
  | S754_infinity _ | S754_nan => false
  end.

(** [v == n] for a decoded value [v] and an [int] [n]: [bool] is a subclass
    of [int], and values of other types ([None] among them, which is
    [JNull]) are never equal to a number. *)
Definition py_eq_int (v : json) (n : Z) : bool :=
  match v with
  | JInt m => m =? n
  | JFloat f => float_eq_int f n
  | JBool b => (if b then 1 else 0) =? n
  | _ => false
  end.

(** [v == s] for a decoded value [v] and a [str] [s]. *)
Definition py_eq_str (v : json) (s : string) : bool :=
  match v with
  | JStr t => bool_decide (t = s)
  | _ => false
  end.

(** Truth value of a [float]: every number but zero (of either sign). *)
Definition float_truthy (x : float) : bool := negb (PrimFloat.eqb x 0%float).

(** ** Collaborators *)

(** [HttpResponse] of the HTTP client component, reduced to what this
    component reads: the status code, whether the client recorded an error
    ([has_error()]), the text of that error, and the decoded JSON body
    ([None] when the body does not decode and [json()] raises). *)
Record HttpResponse : Type := {
  status_code : Z;
  has_error : bool;
  error : string;
  body_json : option json
}.

Inductive http_body : Type :=
| UseLength (use_length : float)      (* {"use_length": used_length} *)
| Body (payload : json).

Record http_request : Type := {
  req_method : string;
  req_url : string;
  req_body : option http_body
}.

(** The arguments of [Sentinel.MISSING | int | None] accepted by
    [set_active_spool]. *)
Inductive spool_arg : Type :=
| MISSING
| Id (spool_id : option Z).

Inductive task : Type :=
| SetActiveSpoolTask (arg : spool_arg)
| CheckSpoolDeletedTask.

(** The text of [_get_response_error]: status code and client error, and
    the server's own message when the body is an object that carries one. *)
Record response_error : Type := {
  err_status : Z;
  err_text : string;
  err_spoolman_message : option json
}.

Inductive message : Type :=
| NoActiveSpool                                  (* debug, track_filament_usage *)
| SendingSpoolUsage (id : Z) (length : float)    (* debug *)
| SpoolNotFound (id : option Z)                  (* info *)
| FailedToUpdateExtrusion (id : Z) (e : response_error)
| SpoolAlreadySet (id : option Z)
| SettingActiveSpool (id : option Z)
| SyncPeriodElapsed
| InitialEpos (epos : option float)
| UnableToSubscribe
| SpoolCheckFailed (e : response_error)
| FoundSpool (id : option Z)
| ConnectedToSpoolman
| Proxying (method url : string).

Inductive level : Type := DEBUG | INFO | ERROR.

(** One entry per call on a collaborator, in program order. *)
Inductive effect : Type :=
| Log (l : level) (m : message)
| Http (r : http_request)
| DbInsert (namespace key : string) (value : option Z)
| SendEvent (name : string) (spool_id : option Z)
| CreateTask (t : task)
| CancelSpoolCheck
| SubscribeObjects.

Inductive exn : Type :=
| ServerError (msg : string) (code : option Z)  (* server.error(msg[, code]) *)
| AttributeError
| JSONDecodeError
| HTTPError (code : Z).

Inductive result (A : Type) : Type :=
| Ok (a : A)
| Raise (e : exn).
Arguments Ok {A} a.
Arguments Raise {A} e.

(** ** The component's state *)

Definition DB_NAMESPACE : string := "moonraker".
Definition ACTIVE_SPOOL_KEY : string := "spoolman.spool_id".

(** [datetime] values and their differences, in microseconds. *)
Definition datetime : Type := Z.

Record SpoolManager : Type := {
  spoolman_url : string;
  sync_rate_seconds : Z;
  last_sync_time : datetime;
  ws_connected : bool;
  spool_id : option Z;
  extruded : float;
  _error_logged : bool;
  _highest_epos : float
}.

Definition set_last_sync_time (t : datetime) (s : SpoolManager) : SpoolManager :=
  {| spoolman_url := spoolman_url s; sync_rate_seconds := sync_rate_seconds s;
     last_sync_time := t; ws_connected := ws_connected s;
     spool_id := spool_id s; extruded := extruded s;
     _error_logged := _error_logged s; _highest_epos := _highest_epos s |}.

Definition set_ws_connected (b : bool) (s : SpoolManager) : SpoolManager :=
  {| spoolman_url := spoolman_url s; sync_rate_seconds := sync_rate_seconds s;
     last_sync_time := last_sync_time s; ws_connected := b;
     spool_id := spool_id s; extruded := extruded s;
     _error_logged := _error_logged s; _highest_epos := _highest_epos s |}.

Definition set_spool_id (i : option Z) (s : SpoolManager) : SpoolManager :=
  {| spoolman_url := spoolman_url s; sync_rate_seconds := sync_rate_seconds s;
     last_sync_time := last_sync_time s; ws_connected := ws_connected s;
     spool_id := i; extruded := extruded s;
     _error_logged := _error_logged s; _highest_epos := _highest_epos s |}.

Definition set_extruded (x : float) (s : SpoolManager) : SpoolManager :=
  {| spoolman_url := spoolman_url s; sync_rate_seconds := sync_rate_seconds s;
     last_sync_time := last_sync_time s; ws_connected := ws_connected s;
     spool_id := spool_id s; extruded := x;
     _error_logged := _error_logged s; _highest_epos := _highest_epos s |}.

Definition set_error_logged (b : bool) (s : SpoolManager) : SpoolManager :=
  {| spoolman_url := spoolman_url s; sync_rate_seconds := sync_rate_seconds s;
     last_sync_time := last_sync_time s; ws_connected := ws_connected s;
     spool_id := spool_id s; extruded := extruded s;
     _error_logged := b; _highest_epos := _highest_epos s |}.

Definition set_highest_epos (x : float) (s : SpoolManager) : SpoolManager :=
  {| spoolman_url := spoolman_url s; sync_rate_seconds := sync_rate_seconds s;
     last_sync_time := last_sync_time s; ws_connected := ws_connected s;
     spool_id := spool_id s; extruded := extruded s;
     _error_logged := _error_logged s; _highest_epos := x |}.

(** [__init__], for the fields above: nothing selected, nothing extruded,
    not connected.  [url], [rate] and [now] come from the configuration and
    the clock. *)
Definition init (url : string) (rate : Z) (now : datetime) : SpoolManager :=
  {| spoolman_url := url; sync_rate_seconds := rate; last_sync_time := now;
     ws_connected := false; spool_id := None; extruded := 0%float;
     _error_logged := false; _highest_epos := 0%float |}.

(** ** The monad of coroutines *)

Record outcome (A : Type) : Type := {
  res : result A;
  final : SpoolManager;
  trace : list effect
}.
Arguments res {A} o.
Arguments final {A} o.
Arguments trace {A} o.

Definition M (A : Type) : Type := SpoolManager -> outcome A.

Definition ret {A} (a : A) : M A :=
  fun s => {| res := Ok a; final := s; trace := [] |}.

Definition bind {A B} (c : M A) (k : A -> M B) : M B :=
  fun s =>
    let o := c s in
    match res o with
    | Ok a =>
        let o' := k a (final o) in
        {| res := res o'; final := final o'; trace := trace o ++ trace o' |}
    | Raise e => {| res := Raise e; final := final o; trace := trace o |}
    end.

Definition raise {A} (e : exn) : M A :=
  fun s => {| res := Raise e; final := s; trace := [] |}.

Definition get : M SpoolManager :=
  fun s => {| res := Ok s; final := s; trace := [] |}.

Definition modify (f : SpoolManager -> SpoolManager) : M unit :=
  fun s => {| res := Ok tt; final := f s; trace := [] |}.

Definition emit (e : effect) : M unit :=
  fun s => {| res := Ok tt; final := s; trace := [e] |}.

(** The monad's operations under stdpp's notations [x ← c; k] and [c;; k]. *)
#[global] Instance M_ret : MRet M := @ret.
#[global] Instance M_bind : MBind M := fun A B k c => bind c k.

Definition log (l : level) (m : message) : M unit := emit (Log l m).

(** ** Usage accumulator *)

(** The status of a subscription to [{"toolhead": ["position"]}]: printer
    objects by name, each a dict of the subscribed fields; [position] is the
    list [x, y, z, e] of floats. *)
Definition _eposition_from_status
    (status : gmap string (gmap string (list float))) : option float :=
  let position := default [] (default ∅ (status !! "toolhead") !! "position") in
  if (3 <? length position)%nat then position !! 3%nat else None.

(** The guard of [_handle_status_update]: [epos and epos > self._highest_epos]. *)
Definition advances (self : SpoolManager) (epos : option float) : bool :=
  match epos with
  | Some e => float_truthy e && PrimFloat.ltb (_highest_epos self) e
  | None => false
  end.

(** The critical section under [extruded_lock]:
    [self.extruded += epos - self._highest_epos; self._highest_epos = epos]. *)
Definition accumulate (epos : float) (self : SpoolManager) : SpoolManager :=
  set_highest_epos epos
    (set_extruded (extruded self + (epos - _highest_epos self))%float self).

(** One position sample through the accumulator: the state after the
    guarded critical section. *)
Definition observe (self : SpoolManager) (epos : option float) : SpoolManager :=
  match epos with
  | Some e => if advances self (Some e) then accumulate e self else self
  | None => self
  end.


(** [difference.total_seconds() > self.sync_rate_seconds] for a difference
    in microseconds: the quotient by [10**6] exceeds the integer exactly
    when the difference exceeds the integer's microseconds, for an integer
    from 1 (the least sync rate that the configuration accepts) to [2**32]:
    the rounding of the quotient to a float is monotone, and keeps such an
    integer apart from its neighbouring microseconds.  Beyond [2**34] it
    does not, and the source's comparison can miss a difference that
    exceeds the integer by few microseconds. *)
Definition total_seconds_gt (difference : Z) (seconds : Z) : bool :=
  seconds * 1000000 <? difference.

(** ** Coroutines that talk to the Spoolman server *)

Section Coroutines.

(** The server's answer to each request. *)
Variable remote : http_request -> HttpResponse.

Definition http_client_request (r : http_request) : M HttpResponse :=
  emit (Http r);; mret (remote r).

Definition _get_response_error (response : HttpResponse) : response_error :=
  {| err_status := status_code response;
     err_text := error response;
     err_spoolman_message :=
       match body_json response with
       | Some (JDict resp) => resp !! "message"
       | _ => None
       end |}.

Definition track_filament_usage : M unit :=
  self ← get;
  match spool_id self with
  | None => log DEBUG NoActiveSpool
  | Some id =>
      if PrimFloat.ltb 0%float (extruded self) && ws_connected self then
        let used_length := extruded self in
        log DEBUG (SendingSpoolUsage id used_length);;
        response ← http_client_request
          {| req_method := "PUT";
             req_url := spoolman_url self +:+ "/v1/spool/" +:+ pretty id +:+ "/use";
             req_body := Some (UseLength used_length) |};
        if has_error response then
          if status_code response =? 404 then
            modify (set_error_logged false);;
            self ← get;
            log INFO (SpoolNotFound (spool_id self));;
            emit (CreateTask (SetActiveSpoolTask MISSING))
          else
            self ← get;
            if negb (_error_logged self) then
              let error_msg := _get_response_error response in
              modify (set_error_logged true);;
              log INFO (FailedToUpdateExtrusion id error_msg)
            else mret tt
        else
          modify (set_error_logged false);;
          modify (set_extruded 0%float)
      else mret tt
  end.

Definition set_active_spool (arg : spool_arg) : M unit :=
  let '(new_id, deleted_spool) :=
    match arg with
    | MISSING => (None, true)
    | Id i => (i, false)
    end in
  self ← get;
  if bool_decide (spool_id self = new_id) then
    log INFO (SpoolAlreadySet new_id)
  else
    (* Store the current spool usage before switching, unless it has been deleted *)
    (if negb deleted_spool then
       match spool_id self, new_id with
       | Some _, _ => track_filament_usage
       | None, Some _ => modify (set_extruded 0%float)
       | None, None => mret tt
       end
     else mret tt);;
    modify (set_spool_id new_id);;
    emit (DbInsert DB_NAMESPACE ACTIVE_SPOOL_KEY new_id);;
    emit (SendEvent "spoolman:active_spool_set" new_id);;
    log INFO (SettingActiveSpool new_id).

(** The request carries short connect and request timeouts, which the
    trace does not record. *)
Definition _check_spool_deleted : M unit :=
  self ← get;
  match spool_id self with
  | Some id =>
      response ← http_client_request
        {| req_method := "GET";
           req_url := spoolman_url self +:+ "/v1/spool/" +:+ pretty id;
           req_body := None |};
      if status_code response =? 404 then
        log INFO (SpoolNotFound (Some id));;
        set_active_spool MISSING
      else if has_error response then
        log INFO (SpoolCheckFailed (_get_response_error response))
      else
        log INFO (FoundSpool (Some id))
  | None => mret tt
  end.

(** What the event loop does with a task made by [create_task]. *)
Definition run_task (t : task) : M unit :=
  match t with
  | SetActiveSpoolTask arg => set_active_spool arg
  | CheckSpoolDeletedTask => _check_spool_deleted
  end.

Definition _handle_status_update
    (status : gmap string (gmap string (list float))) (now : datetime) : M unit :=
  let epos := _eposition_from_status status in
  self ← get;
  match epos with
  | Some e =>
      if advances self (Some e) then
        modify (accumulate e);;
        self ← get;
        let difference := now - last_sync_time self in
        if total_seconds_gt difference (sync_rate_seconds self) then
          modify (set_last_sync_time now);;
          log DEBUG SyncPeriodElapsed;;
          track_filament_usage
        else mret tt
      else mret tt
  | None => mret tt
  end.

(** The arguments of a proxy request as [WebRequest.get_str] and
    [WebRequest.get] deliver them: [request_method] and [path] are
    required strings, [query] and [body] default to [None]. *)
Record WebRequest : Type := {
  request_method : string;
  path : string;
  query : option string;
  body : option json
}.

Definition _proxy_spoolman_request (web_request : WebRequest) : M json :=
  let method := request_method web_request in
  let path := path web_request in
  let query := query web_request in
  let body := body web_request in
  if negb (bool_decide (method ∈ ["GET"; "POST"; "PUT"; "PATCH"; "DELETE"])) then
    raise (ServerError ("Invalid HTTP method: " +:+ method) None)
  else if bool_decide (body ≠ None) && bool_decide (method = "GET") then
    raise (ServerError "GET requests cannot have a body" None)
  else if (String.length path <? 4)%nat
          || negb (bool_decide (String.substring 0 4 path = "/v1/")) then
    raise (ServerError "Invalid path, must start with the API version, e.g. /v1" None)
  else
    let query := match query with Some q => "?" +:+ q | None => "" end in
    self ← get;
    let full_url := spoolman_url self +:+ path +:+ query in
    if negb (ws_connected self) then
      raise (ServerError "Spoolman server not available" (Some 503))
    else
      log DEBUG (Proxying method full_url);;
      response ← http_client_request
        {| req_method := method; req_url := full_url;
           req_body := Body <$> body |};
      (* response.raise_for_status(); return response.json() *)
      if has_error response then raise (HTTPError (status_code response))
      else match body_json response with
           | Some j => mret j
           | None => raise JSONDecodeError
           end.

End Coroutines.

(** ** Handlers that issue no request *)

(** [_handle_klippy_ready]; [result] is what [subscribe_objects] returned. *)
Definition _handle_klippy_ready
    (result : gmap string (gmap string (list float))) : M unit :=
  emit SubscribeObjects;;
  let initial_e_pos := _eposition_from_status result in
  log DEBUG (InitialEpos initial_e_pos);;
  match initial_e_pos with
  | Some e => modify (set_highest_epos e)
  | None =>
      log ERROR UnableToSubscribe;;
      raise (ServerError "Unable to subscribe to e position" None)
  end.

(** [v.get(key, dflt)]: [get] is an attribute of dicts only.  Python's
    [None] is [JNull]. *)
Definition py_get (v : json) (key : string) (dflt : json) : M json :=
  match v with
  | JDict d => mret (default dflt (d !! key))
  | _ => raise AttributeError
  end.

(** The body of [_decode_message] once [jsonw.loads] has returned [event]. *)
Definition _decode_event (event : json) : M unit :=
  resource ← py_get event "resource" JNull;
  if negb (py_eq_str resource "spool") then mret tt
  else
    self ← get;
    match spool_id self with
    | Some id =>
        type ← py_get event "type" JNull;
        if py_eq_str type "deleted" then
          payload ← py_get event "payload" (JDict ∅);
          payload_id ← py_get payload "id" JNull;
          if py_eq_int payload_id id then emit (CreateTask (SetActiveSpoolTask MISSING))
          else mret tt
        else mret tt
    | None => mret tt
    end.

Section Decoder.

(** [jsonw.loads]: the decoded document, or [None] when the text is not
    JSON and the call raises. *)
Variable loads : string -> option json.

Definition _decode_message (message : string) : M unit :=
  match loads message with
  | Some event => _decode_event event
  | None => raise JSONDecodeError
  end.

End Decoder.

(** The [else] branch of the connection attempt in [_connect_websocket]:
    the websocket is open. *)
Definition websocket_connected : M unit :=
  modify (set_ws_connected true);;
  modify (set_error_logged false);;
  log INFO ConnectedToSpoolman;;
  self ← get;
  match spool_id self with
  | Some _ => emit CancelSpoolCheck;; emit (CreateTask CheckSpoolDeletedTask)
  | None => mret tt
  end.

(** [_read_messages] on the end of the stream. *)
Definition websocket_closed : M unit := modify (set_ws_connected false).

(** ** Configuration: the [server] option

    Text is held as its UTF-8 bytes. *)

Definition is_newline (c : Ascii.ascii) : bool := Ascii.eqb c "010"%char.

(** [.+]: the longest run of characters other than the newline; it must
    not be empty for the pattern to match. *)
Fixpoint dot_plus (s : string) : string :=
  match s with
  | String c rest => if is_newline c then "" else String c (dot_plus rest)
  | EmptyString => ""
  end.

(** A letter of the pattern under [(?i)]. *)
Definition ci (lower upper c : Ascii.ascii) : bool :=
  Ascii.eqb c lower || Ascii.eqb c upper.

(** The literal [://]. *)
Definition strip_sep (s : string) : option string :=
  match s with
  | String c1 (String c2 (String c3 rest)) =>
      if Ascii.eqb c1 ":" && Ascii.eqb c2 "/" && Ascii.eqb c3 "/" then Some rest
      else None
  | _ => None
  end.

(** [(?i:(?P<scheme>https?)://)] at the start of [u]: the scheme as it is
    written and the text after [://].  Under [(?i)] the letter [s] of the
    pattern also matches the long s (U+017F), which is the two bytes 197,
    191. *)
Definition match_scheme (u : string) : option (string * string) :=
  match u with
  | String c1 (String c2 (String c3 (String c4 rest))) =>
      if ci "h" "H" c1 && ci "t" "T" c2 && ci "t" "T" c3 && ci "p" "P" c4 then
        let http := String c1 (String c2 (String c3 (String c4 ""))) in
        match rest with
        | String s (String s' rest') =>
            if ci "s" "S" s then
              pair (http +:+ String s "") <$> strip_sep (String s' rest')
            else if Ascii.eqb s "197"%char && Ascii.eqb s' "191"%char then
              pair (http +:+ String s (String s' "")) <$> strip_sep rest'
            else pair http <$> strip_sep rest
        | _ => None
        end
      else None
  | _ => None
  end.

(** [re.match(r"(?i:(?P<scheme>https?)://)?(?P<host>.+)", orig_url)]: the
    groups [scheme] ([None] when the optional group takes no part) and
    [host].  When a scheme is found but no host follows it, the match is
    retried without the optional group. *)
Definition url_match (orig_url : string) : option (option string * string) :=
  let without_scheme :=
    match dot_plus orig_url with
    | "" => None
    | host => Some (None, host)
    end in
  match match_scheme orig_url with
  | Some (scheme, rest) =>
      match dot_plus rest with
      | "" => without_scheme
      | host => Some (Some scheme, host)
      end
  | None => without_scheme
  end.

(** [host.rstrip("/")] *)
Fixpoint rstrip_slash (s : string) : string :=
  match s with
  | EmptyString => ""
  | String c rest =>
      match rstrip_slash rest with
      | "" => if Ascii.eqb c "/" then "" else String c ""
      | rest' => String c rest'
      end
  end.

(** The text holds no newline. *)
Fixpoint single_line (s : string) : bool :=
  match s with
  | EmptyString => true
  | String c rest => negb (is_newline c) && single_line rest
  end.

(** The text holds [://] somewhere. *)
Fixpoint contains_sep (s : string) : bool :=
  match s with
  | EmptyString => false
  | String c rest =>
      match strip_sep s with
      | Some _ => true
      | None => contains_sep rest
      end
  end.

Inductive urls : Type :=
| Urls (spoolman_url ws_url : string)
| ConfigError (msg : string).

Definition _get_spoolman_urls (orig_url : string) : urls :=
  match url_match orig_url with
  | None =>
      ConfigError ("Section [spoolman], Option server: " +:+ orig_url
                   +:+ ": Invalid URL format")
  | Some (scheme, host) =>
      let scheme := default "http" scheme in
      let host := rstrip_slash host in
      let ws_scheme := if bool_decide (scheme = "https") then "wss" else "ws" in
      Urls (scheme +:+ "://" +:+ host +:+ "/api")
           (ws_scheme +:+ "://" +:+ host +:+ "/api/v1/spool")
  end.

(** ** The selection endpoint, start-up and the database *)

(** The request types the endpoint [/server/spoolman/spool_id] is
    registered for. *)
Inductive RequestType : Type := GET | POST.

(** [spool_id_arg] is [web_request.get_int("spool_id", None)]; the answer
    is the value of [{"spool_id": self.spool_id}]. *)
Definition _handle_spool_id_request (remote : http_request -> HttpResponse)
    (request_type : RequestType) (spool_id_arg : option Z) : M (option Z) :=
  match request_type with
  | POST => set_active_spool remote (Id spool_id_arg)
  | GET => mret tt
  end;;
  self ← get;
  mret (spool_id self).

(** The database component, for the items this component keeps:
    [get_item(namespace, key, default)] and [insert_item]. *)
Definition get_item (db : gmap (string * string) (option Z))
    (namespace key : string) (dflt : option Z) : option Z :=
  default dflt (db !! (namespace, key)).

Definition insert_item (namespace key : string) (value : option Z)
    (db : gmap (string * string) (option Z)) : gmap (string * string) (option Z) :=
  <[(namespace, key) := value]> db.

(** The database once the writes of a trace have reached it. *)
Definition persist (t : list effect) (db : gmap (string * string) (option Z)) :
    gmap (string * string) (option Z) :=
  fold_left (fun db e => match e with
                         | DbInsert ns k v => insert_item ns k v db
                         | _ => db
                         end) t db.

(** The task [component_init] creates and keeps in [connection_task]. *)
Inductive background : Type := ConnectWebsocket.

Definition component_init (db : gmap (string * string) (option Z)) : M background :=
  modify (set_spool_id (get_item db DB_NAMESPACE ACTIVE_SPOOL_KEY None));;
  mret ConnectWebsocket.

(** ** Sequences of calls

    The entry points of the component, as the server, the printer, the
    websocket and the event loop call them, one call at a time. *)
Inductive call : Type :=
| StatusUpdate (status : gmap string (gmap string (list float))) (now : datetime)
| KlippyReady (result : gmap string (gmap string (list float)))
| SelectSpool (arg : spool_arg)
| SpoolIdRequest (request_type : RequestType) (spool_id_arg : option Z)
| Flush
| Event (event : json)
| CheckSpool
| ProxyRequest (w : WebRequest)
| WebsocketOpened
| WebsocketClosed.

Definition perform (remote : http_request -> HttpResponse) (c : call) : M unit :=
  match c with
  | StatusUpdate status now => _handle_status_update remote status now
  | KlippyReady result => _handle_klippy_ready result
  | SelectSpool arg => set_active_spool remote arg
  | SpoolIdRequest t a => _handle_spool_id_request remote t a;; mret tt
  | Flush => track_filament_usage remote
  | Event event => _decode_event event
  | CheckSpool => _check_spool_deleted remote
  | ProxyRequest w => _proxy_spoolman_request remote w;; mret tt
  | WebsocketOpened => websocket_connected
  | WebsocketClosed => websocket_closed
  end.

(** Calls in sequence, each with the server of its time; a call that
    raises ends alone, the next one runs on the state it left. *)
Fixpoint run_calls (calls : list ((http_request -> HttpResponse) * call))
    (self : SpoolManager) : SpoolManager * list effect :=
  match calls with
  | [] => (self, [])
  | (remote, c) :: rest =>
      let o := perform remote c self in
      let r := run_calls rest (final o) in
      (r.1, (trace o ++ r.2)%list)
  end.

(** Calls that may change the selection. *)
Definition selects (c : call) : bool :=
  match c with
  | SelectSpool _ | SpoolIdRequest POST _ | CheckSpool => true
  | _ => false
  end.

(** Calls that send without looking at the websocket, or open it. *)
Definition ignores_connection (c : call) : bool :=
  match c with
  | CheckSpool | WebsocketOpened => true
  | _ => false
  end.

(** ** The websocket *)

(** What [read_message] returns: a [str], [bytes], or [None] at the end of
    the stream. *)
Inductive frame : Type :=
| TextFrame (message : string)
| BinaryFrame
| EndOfStream.

(** [_read_messages] on the frames that arrive, in order.  The result tells
    whether the end of the stream was read (the coroutine returned) or the
    coroutine is still waiting for a frame. *)
Fixpoint _read_messages (loads : string -> option json) (frames : list frame) : M bool :=
  match frames with
  | [] => mret false
  | TextFrame message :: rest =>
      _decode_message loads message;; _read_messages loads rest
  | BinaryFrame :: rest => _read_messages loads rest
  | EndOfStream :: _ => websocket_closed;; mret true
  end.

(** An exception of a connection attempt, as [_connect_websocket] compares
    it: by type and [args]. *)
Inductive exc_arg : Type := ArgInt (n : Z) | ArgStr (s : string).

Record py_exception : Type := {
  exc_type : string;
  exc_args : list exc_arg
}.

#[global] Instance exc_arg_eq_dec : EqDecision exc_arg.
Proof. solve_decision. Defined.

#[global] Instance py_exception_eq_dec : EqDecision py_exception.
Proof. solve_decision. Defined.

(** [Exception()] *)
Definition blank_exception : py_exception :=
  {| exc_type := "Exception"; exc_args := [] |}.

(** The local variables of [_connect_websocket]. *)
Record loop_vars : Type := {
  log_connect : bool;
  last_err : py_exception
}.

Definition loop_start : loop_vars :=
  {| log_connect := true; last_err := blank_exception |}.

(** What one connection attempt meets. *)
Inductive attempt : Type :=
| Refused (e : py_exception)          (* websocket_connect raises *)
| Cancelled                           (* asyncio.CancelledError *)
| Opened (frames : list frame).       (* connected; the frames then read *)

(** One turn of the loop: the attempt, and whether [close] has set
    [is_closing] by the end of the turn, or else during the sleep. *)
Record round : Type := {
  met : attempt;
  closing_at_end : bool;
  closing_after_sleep : bool
}.

(** A turn of the loop during which no shutdown is requested. *)
Definition undisturbed (a : attempt) : round :=
  {| met := a; closing_at_end := false; closing_after_sleep := false |}.

Inductive loop_event : Type :=
| LogConnecting
| LogConnectFailed (e : py_exception)
| Did (e : effect)
| Sleep.

Inductive loop_end : Type :=
| Exited                         (* [is_closing] ended the loop *)
| Escaped (e : exn)              (* an exception left the coroutine *)
| CancelledError
| Waiting                        (* [_read_messages] awaits a frame *)
| Looping (vars : loop_vars).    (* the next attempt is due *)

Record loop_result : Type := {
  ended : loop_end;
  manager : SpoolManager;
  events : list loop_event
}.

Fixpoint _connect_websocket (loads : string -> option json) (rounds : list round)
    (vars : loop_vars) (self : SpoolManager) : loop_result :=
  match rounds with
  | [] => {| ended := Looping vars; manager := self; events := [] |}
  | r :: rest =>
      let connecting := if log_connect vars then [LogConnecting] else [] in
      let finish (vars : loop_vars) (self : SpoolManager) (evs : list loop_event) :=
        if closing_at_end r then
          {| ended := Exited; manager := self; events := evs |}
        else if closing_after_sleep r then
          {| ended := Exited; manager := self; events := (evs ++ [Sleep])%list |}
        else
          let next := _connect_websocket loads rest vars self in
          {| ended := ended next; manager := manager next;
             events := (evs ++ [Sleep] ++ events next)%list |} in
      match met r with
      | Cancelled =>
          {| ended := CancelledError; manager := self; events := connecting |}
      | Refused e =>
          if bool_decide (exc_type (last_err vars) ≠ exc_type e)
             || bool_decide (exc_args (last_err vars) ≠ exc_args e)
          then finish {| log_connect := false; last_err := e |} self
                 (connecting ++ [LogConnectFailed e])%list
          else finish {| log_connect := false; last_err := last_err vars |} self
                 connecting
      | Opened frames =>
          let o := (websocket_connected;; _read_messages loads frames) self in
          match res o with
          | Raise e =>
              {| ended := Escaped e; manager := final o;
                 events := (connecting ++ (Did <$> trace o))%list |}
          | Ok false =>
              {| ended := Waiting; manager := final o;
                 events := (connecting ++ (Did <$> trace o))%list |}
          | Ok true =>
              finish {| log_connect := true; last_err := blank_exception |}
                (final o) (connecting ++ (Did <$> trace o))%list
          end
      end
  end.

Definition connect_failures (evs : list loop_event) : list py_exception :=
  omap (fun e => match e with LogConnectFailed x => Some x | _ => None end) evs.

Definition sleeps (evs : list loop_event) : nat :=
  length (omap (fun e => match e with Sleep => Some tt | _ => None end) evs).

(** The selection [set_active_spool] is asked for. *)
Definition requested_id (arg : spool_arg) : option Z :=
  match arg with
  | MISSING => None
  | Id i => i
  end.

(** The request the proxy forwards for [w]. *)
Definition forwarded (self : SpoolManager) (w : WebRequest) : http_request :=
  {| req_method := request_method w;
     req_url := spoolman_url self +:+ path w
                +:+ match query w with Some q => "?" +:+ q | None => "" end;
     req_body := Body <$> body w |}.

(** The proxy's three tests on the arguments pass. *)
Definition proxy_accepts (w : WebRequest) : bool :=
  bool_decide (request_method w ∈ ["GET"; "POST"; "PUT"; "PATCH"; "DELETE"])
  && negb (bool_decide (body w ≠ None) && bool_decide (request_method w = "GET"))
  && String.prefix "/v1/" (path w).

(** The name of the notification of a change of selection. *)
Definition ACTIVE_SPOOL_SET : string := "spoolman:active_spool_set".

(** ** Reference definitions, in the words of the specification *)



(** ** Reading a trace *)

Definition requests (t : list effect) : list http_request :=
  omap (fun e => match e with Http r => Some r | _ => None end) t.

Definition db_writes (t : list effect) : list (string * string * option Z) :=
  omap (fun e => match e with DbInsert ns k v => Some (ns, k, v) | _ => None end) t.

Definition notifications (t : list effect) : list (string * option Z) :=
  omap (fun e => match e with SendEvent n v => Some (n, v) | _ => None end) t.

Definition spawned (t : list effect) : list task :=
  omap (fun e => match e with CreateTask k => Some k | _ => None end) t.

(** The log records of a failed usage report. *)
Definition failure_logs (t : list effect) : list response_error :=
  omap (fun e => match e with
                 | Log INFO (FailedToUpdateExtrusion _ err) => Some err
                 | _ => None
                 end) t.

(** A failing response other than a 404. *)
Definition is_transient_failure (r : HttpResponse) : bool :=
  has_error r && negb (status_code r =? 404).

(** The usage report that [track_filament_usage] sends for spool [id]. *)
Definition usage_request (self : SpoolManager) (id : Z) : http_request :=
  {| req_method := "PUT";
     req_url := spoolman_url self +:+ "/v1/spool/" +:+ pretty id +:+ "/use";
     req_body := Some (UseLength (extruded self)) |}.

(** The fetch by which [_check_spool_deleted] looks for spool [id]. *)
Definition check_request (self : SpoolManager) (id : Z) : http_request :=
  {| req_method := "GET";
     req_url := spoolman_url self +:+ "/v1/spool/" +:+ pretty id;
     req_body := None |}.

(** What [set_active_spool] does once the selection has changed: persist,
    notify, log. *)
Definition selection_changed (new_id : option Z) : list effect :=
  [DbInsert DB_NAMESPACE ACTIVE_SPOOL_KEY new_id;
   SendEvent "spoolman:active_spool_set" new_id;
   Log INFO (SettingActiveSpool new_id)].

(** The guards of [track_filament_usage] pass: a spool is selected, the
    pending amount is greater than zero and the websocket is connected. *)
Definition flush_ready (self : SpoolManager) : bool :=
  bool_decide (spool_id self ≠ None)
  && PrimFloat.ltb 0%float (extruded self) && ws_connected self.

(** Successive flushes, each answered by the server of its turn. *)
Fixpoint flushes (remotes : list (http_request -> HttpResponse)) : M unit :=
  match remotes with
  | [] => mret tt
  | remote :: rest => track_filament_usage remote;; flushes rest
  end.

(** An event that reports the deletion of a spool:
    [resource == "spool"] and [type == "deleted"]. *)
Definition is_spool_deletion (event : gmap string json) : bool :=
  py_eq_str (default JNull (event !! "resource")) "spool"
  && py_eq_str (default JNull (event !! "type")) "deleted".

(** The payload of an event is an object, or is absent. *)
Definition payload_is_object (event : gmap string json) : bool :=
  match event !! "payload" with
  | Some (JDict _) | None => true
  | Some _ => false
  end.

(** The [id] of the payload of an event equals the selected spool id. *)
Definition payload_names_selected (self : SpoolManager) (event : gmap string json) : bool :=
  match spool_id self, event !! "payload" with
  | Some id, Some (JDict payload) => py_eq_int (default JNull (payload !! "id")) id
  | _, _ => false
  end.

(** ** Sample states and answers *)

Definition fresh : SpoolManager := init "http://spoolman.local/api" 5 0.

(** Spool 1 selected, 5 mm pending, connected. *)
Definition tracking : SpoolManager :=
  set_ws_connected true (set_spool_id (Some 1) (set_extruded 5%float fresh)).

(** The same, with the websocket down. *)
Definition offline : SpoolManager := set_ws_connected false tracking.

Definition answer (code : Z) (failed : bool) (text : string) : http_request -> HttpResponse :=
  fun _ => {| status_code := code; has_error := failed; error := text;
              body_json := None |}.

(** [{"resource": "spool", "type": "deleted", "payload": {"id": 1},
      "date": "2024-01-01"}] *)
Definition spool_1_deleted : gmap string json :=
  {[ "resource" := JStr "spool"; "type" := JStr "deleted";
     "payload" := JDict {[ "id" := JInt 1 ]}; "date" := JStr "2024-01-01" ]}.

(** [{"resource": "vendor", "type": "deleted", "payload": 1}] *)
Definition vendor_1_deleted : gmap string json :=
  {[ "resource" := JStr "vendor"; "type" := JStr "deleted"; "payload" := JInt 1 ]}.

Definition toolhead_at (e : float) : gmap string (gmap string (list float)) :=
  {[ "toolhead" := {[ "position" := [0%float; 0%float; 0%float; e] ]} ]}.

(** * Properties *)

(** ** Order facts on binary64 numbers *)

Lemma SFcompare_antisym (x y : spec_float) :
  SFcompare y x = option_map CompOpp (SFcompare x y).
Proof.
  destruct x as [s1|s1| |s1 m1 e1], y as [s2|s2| |s2 m2 e2]; simpl;
    try destruct s1; try destruct s2; try reflexivity.
  - rewrite (Z.compare_antisym e1 e2).
    destruct (e1 ?= e2); simpl; try reflexivity.
    change (Pos.compare_cont Eq m2 m1) with (m2 ?= m1)%positive.
    change (Pos.compare_cont Eq m1 m2) with (m1 ?= m2)%positive.
    now rewrite (Pos.compare_antisym m1 m2), CompOpp_involutive.
  - rewrite (Z.compare_antisym e1 e2).
    destruct (e1 ?= e2); simpl; try reflexivity.
    change (Pos.compare_cont Eq m2 m1) with (m2 ?= m1)%positive.
    change (Pos.compare_cont Eq m1 m2) with (m1 ?= m2)%positive.
    now rewrite (Pos.compare_antisym m1 m2).
Qed.

(** A number that is at most [h] is not above [h]. *)
Lemma float_leb_not_gt (p h : float) :
  PrimFloat.leb p h = true -> PrimFloat.ltb h p = false.
Proof.
  rewrite FloatAxioms.leb_spec, FloatAxioms.ltb_spec. unfold SFleb, SFltb.
  rewrite (SFcompare_antisym (Prim2SF p) (Prim2SF h)).
  destruct (SFcompare (Prim2SF p) (Prim2SF h)) as [[]|]; simpl; congruence.
Qed.


(** ** The usage accumulator *)

Lemma observe_ignored (self : SpoolManager) (p : float) :
  PrimFloat.ltb (_highest_epos self) p = false -> observe self (Some p) = self.
Proof.
  intros Hlt. unfold observe, advances. rewrite Hlt.
  now rewrite andb_false_r.
Qed.



(** ** Flushing pending usage *)

(** Unfolds the monad's operations in a goal. *)
Ltac run :=
  cbv [mbind M_bind bind mret M_ret ret get modify emit log raise
       http_client_request];
  cbn [res final trace].

(** C3.  [track_filament_usage] does nothing when no spool is selected, when
    the pending amount is not greater than zero, or when the websocket is
    not connected: it returns normally, leaves the whole state as it was
    (the pending amount with it) and issues no request. *)
Theorem C3_flush_is_noop_without_preconditions
    (remote : http_request -> HttpResponse) (self : SpoolManager) :
  spool_id self = None
  \/ PrimFloat.ltb 0%float (extruded self) = false
  \/ ws_connected self = false ->
  res (track_filament_usage remote self) = Ok tt
  /\ final (track_filament_usage remote self) = self
  /\ extruded (final (track_filament_usage remote self)) = extruded self
  /\ requests (trace (track_filament_usage remote self)) = [].
Proof.
  intros H. unfold track_filament_usage. run.
  destruct (spool_id self) as [id|]; [|now repeat split].
  assert (Hg : PrimFloat.ltb 0%float (extruded self) && ws_connected self = false).
  { destruct H as [H|[H|H]]; [discriminate| |]; rewrite H;
      [reflexivity | apply andb_false_r]. }
  rewrite Hg. now repeat split.
Qed.

Lemma C3_witness :
  res (track_filament_usage (answer 200 false "") offline) = Ok tt
  /\ final (track_filament_usage (answer 200 false "") offline) = offline
  /\ extruded (final (track_filament_usage (answer 200 false "") offline))
     = extruded offline
  /\ requests (trace (track_filament_usage (answer 200 false "") offline)) = [].
Proof.
  apply (C3_flush_is_noop_without_preconditions (answer 200 false "") offline).
  right; right. reflexivity.
Defined.

Lemma set_error_logged_same (self : SpoolManager) :
  set_error_logged (_error_logged self) self = self.
Proof. now destruct self. Qed.

Lemma flush_not_ready (remote : http_request -> HttpResponse) (self : SpoolManager) :
  flush_ready self = false ->
  res (track_filament_usage remote self) = Ok tt
  /\ final (track_filament_usage remote self) = self
  /\ failure_logs (trace (track_filament_usage remote self)) = [].
Proof.
  unfold flush_ready, track_filament_usage. run.
  destruct (spool_id self) as [id|]; [|now repeat split].
  rewrite bool_decide_true by done. cbn [andb].
  intros ->. now repeat split.
Qed.

Lemma flush_transient (remote : http_request -> HttpResponse) (self : SpoolManager) :
  (forall req, is_transient_failure (remote req) = true) ->
  flush_ready self = true ->
  res (track_filament_usage remote self) = Ok tt
  /\ final (track_filament_usage remote self) = set_error_logged true self
  /\ length (failure_logs (trace (track_filament_usage remote self)))
     = (if _error_logged self then 0 else 1)%nat.
Proof.
  intros Hfail. unfold flush_ready, track_filament_usage. run.
  destruct (spool_id self) as [id|]; [|discriminate].
  rewrite bool_decide_true by done. cbn [andb].
  intros ->.
  match goal with |- context [remote ?r] => specialize (Hfail r); set (resp := remote r) in * end.
  unfold is_transient_failure in Hfail. apply andb_true_iff in Hfail as [He Hc].
  apply negb_true_iff in Hc. cbn [res final trace]. rewrite He; cbn [res final trace].
  rewrite Hc; cbn [res final trace].
  destruct (_error_logged self) eqn:Hl; cbn [negb res final trace].
  - repeat split. now rewrite <- Hl, set_error_logged_same.
  - now repeat split.
Qed.

Lemma flushes_transient (remotes : list (http_request -> HttpResponse)) :
  Forall (fun remote => forall req, is_transient_failure (remote req) = true) remotes ->
  forall self : SpoolManager,
    res (flushes remotes self) = Ok tt
    /\ extruded (final (flushes remotes self)) = extruded self
    /\ (length (failure_logs (trace (flushes remotes self))) <= 1)%nat
    /\ (_error_logged self = true ->
        failure_logs (trace (flushes remotes self)) = []).
Proof.
  induction 1 as [|remote rest Hr _ IH]; intros self.
  - cbn. repeat split; auto.
  - cbn [flushes]. run.
    destruct (flush_ready self) eqn:Hready.
    + destruct (flush_transient remote self Hr Hready) as (Hres & Hfin & Hlen).
      rewrite Hres, Hfin. cbn [res final trace].
      destruct (IH (set_error_logged true self)) as (Hres' & Hext & _ & Hnil).
      specialize (Hnil eq_refl).
      unfold failure_logs in *. rewrite omap_app, Hnil, app_nil_r.
      repeat split; auto.
      * destruct (_error_logged self); rewrite Hlen; lia.
      * intros Hl. rewrite Hl in Hlen.
        now apply nil_length_inv.
    + destruct (flush_not_ready remote self Hready) as (Hres & Hfin & Hnil).
      rewrite Hres, Hfin. cbn [res final trace].
      unfold failure_logs in *. rewrite omap_app, Hnil.
      apply IH.
Qed.

Lemma flush_ready_selected (self : SpoolManager) :
  flush_ready self = true <->
  (exists id, spool_id self = Some id)
  /\ PrimFloat.ltb 0%float (extruded self) = true /\ ws_connected self = true.
Proof.
  unfold flush_ready. rewrite !andb_true_iff, bool_decide_eq_true.
  split.
  - intros [[Hs ->] ->]. destruct (spool_id self) as [id|]; [eauto|done].
  - intros [[id ->] [-> ->]]. done.
Qed.

(** A flush whose guards pass, by the answer to its request. *)
Lemma flush_sends (remote : http_request -> HttpResponse) (self : SpoolManager) (id : Z) :
  spool_id self = Some id ->
  PrimFloat.ltb 0%float (extruded self) = true ->
  ws_connected self = true ->
  track_filament_usage remote self
  = {| res := Ok tt;
       final :=
         if has_error (remote (usage_request self id)) then
           if status_code (remote (usage_request self id)) =? 404
           then set_error_logged false self
           else if _error_logged self then self else set_error_logged true self
         else set_extruded 0%float (set_error_logged false self);
       trace :=
         [Log DEBUG (SendingSpoolUsage id (extruded self));
          Http (usage_request self id)]
         ++ (if has_error (remote (usage_request self id)) then
               if status_code (remote (usage_request self id)) =? 404
               then [Log INFO (SpoolNotFound (Some id));
                     CreateTask (SetActiveSpoolTask MISSING)]
               else if _error_logged self then []
                    else [Log INFO (FailedToUpdateExtrusion id
                            (_get_response_error (remote (usage_request self id))))]
             else []) |}.
Proof.
  intros Hs He Hc. unfold track_filament_usage. run.
  rewrite Hs, He, Hc. cbn [andb res final trace].
  fold (usage_request self id).
  destruct (has_error (remote (usage_request self id))); cbn [res final trace].
  - destruct (status_code (remote (usage_request self id)) =? 404);
      cbn [res final trace].
    + cbn [spool_id set_error_logged]. now rewrite ?Hs.
    + destruct (_error_logged self); reflexivity.
  - reflexivity.
Qed.

Lemma error_logged_set (self : SpoolManager) :
  _error_logged self = true -> set_error_logged true self = self.
Proof. intros H. rewrite <- H. apply set_error_logged_same. Qed.

(** Successive flushes whose guards pass, each answered by a failure other
    than a 404: every one sends the same report again, and only the first
    is logged, and that when the flag was clear. *)
Lemma flushes_ready_transient (remotes : list (http_request -> HttpResponse)) :
  Forall (fun remote => forall req, is_transient_failure (remote req) = true) remotes ->
  forall (self : SpoolManager) (id : Z),
    spool_id self = Some id ->
    PrimFloat.ltb 0%float (extruded self) = true ->
    ws_connected self = true ->
    final (flushes remotes self)
    = match remotes with
      | [] => self
      | _ :: _ => set_error_logged true self
      end
    /\ failure_logs (trace (flushes remotes self))
       = (if _error_logged self then []
          else match remotes with
               | [] => []
               | remote :: _ => [_get_response_error (remote (usage_request self id))]
               end)
    /\ requests (trace (flushes remotes self))
       = (fun _ => usage_request self id) <$> remotes.
Proof.
  induction 1 as [|remote rest Hr _ IH]; intros self id Hs He Hc.
  - cbn. now destruct (_error_logged self).
  - cbn [flushes]. run.
    rewrite (flush_sends remote self id Hs He Hc).
    pose proof (Hr (usage_request self id)) as Hfail.
    unfold is_transient_failure in Hfail.
    apply andb_true_iff in Hfail as [Herr Hcode]. apply negb_true_iff in Hcode.
    rewrite Herr, Hcode. cbn [res final trace].
    assert (Hnext : (if _error_logged self then self else set_error_logged true self)
                    = set_error_logged true self).
    { destruct (_error_logged self) eqn:Hl; [|reflexivity].
      symmetry. now apply error_logged_set. }
    rewrite Hnext.
    destruct (IH (set_error_logged true self) id Hs He Hc) as (Hfin & Hlogs & Hreqs).
    cbn [_error_logged set_error_logged] in Hlogs.
    unfold failure_logs, requests in *. rewrite !omap_app, Hlogs, Hreqs, app_nil_r.
    split; [|split].
    + rewrite Hfin. now destruct rest.
    + cbn [omap app]. now destruct (_error_logged self).
    + cbn [omap app fmap list_fmap]. now destruct (_error_logged self).
Qed.

(** Spool 1 selected, 5 mm pending, connected, the flag clear.  Two flushes
    fail, the first with a 500 and the second with a 503: both reports are
    sent, and only the 500 is logged. *)
Lemma C2_counterexample :
  requests (trace (flushes [answer 500 true "Internal Server Error";
                            answer 503 true "Service Unavailable"] tracking))
  = [usage_request tracking 1; usage_request tracking 1]
  /\ failure_logs (trace (flushes [answer 500 true "Internal Server Error";
                                   answer 503 true "Service Unavailable"] tracking))
     = [{| err_status := 500; err_text := "Internal Server Error";
           err_spoolman_message := None |}].
Proof. vm_compute. split; reflexivity. Qed.

(** C2 (amended).  A flush answered by a failing response other than a 404
    returns normally and keeps the pending amount and the selection as they
    were.  It logs that failure when the suppression flag is clear, and
    sets the flag; while the flag is set it logs nothing.  So of successive
    flushes so answered, each of which sends the same report again, only
    the first is logged, whether the later ones fail with the same error or
    with another, and none is when the flag was already set; the pending
    amount is unchanged throughout.  The flag is cleared by a flush that
    succeeds, by a flush answered by a 404, and by a new connection. *)
Theorem C2_transient_failure_keeps_pending_usage :
  (forall (remote : http_request -> HttpResponse) (self : SpoolManager),
      (forall req, is_transient_failure (remote req) = true) ->
      res (track_filament_usage remote self) = Ok tt
      /\ extruded (final (track_filament_usage remote self)) = extruded self
      /\ spool_id (final (track_filament_usage remote self)) = spool_id self
      /\ length (failure_logs (trace (track_filament_usage remote self)))
         = (if flush_ready self && negb (_error_logged self) then 1 else 0)%nat
      /\ (flush_ready self = true ->
          _error_logged (final (track_filament_usage remote self)) = true)
      /\ (forall id : Z,
             spool_id self = Some id ->
             flush_ready self = true ->
             requests (trace (track_filament_usage remote self))
             = [usage_request self id]
             /\ failure_logs (trace (track_filament_usage remote self))
                = (if _error_logged self then []
                   else [_get_response_error (remote (usage_request self id))])))
  /\ (forall (remotes : list (http_request -> HttpResponse)) (self : SpoolManager),
         Forall (fun remote => forall req, is_transient_failure (remote req) = true)
           remotes ->
         res (flushes remotes self) = Ok tt
         /\ extruded (final (flushes remotes self)) = extruded self
         /\ (length (failure_logs (trace (flushes remotes self))) <= 1)%nat
         /\ (_error_logged self = true ->
             failure_logs (trace (flushes remotes self)) = []))
  /\ (forall (remotes : list (http_request -> HttpResponse)) (self : SpoolManager)
             (id : Z),
         Forall (fun remote => forall req, is_transient_failure (remote req) = true)
           remotes ->
         spool_id self = Some id ->
         PrimFloat.ltb 0%float (extruded self) = true ->
         ws_connected self = true ->
         failure_logs (trace (flushes remotes self))
         = (if _error_logged self then []
            else match remotes with
                 | [] => []
                 | remote :: _ =>
                     [_get_response_error (remote (usage_request self id))]
                 end)
         /\ requests (trace (flushes remotes self))
            = (fun _ => usage_request self id) <$> remotes)
  /\ (forall (remote : http_request -> HttpResponse) (self : SpoolManager),
         (forall req, has_error (remote req) = false) ->
         flush_ready self = true ->
         _error_logged (final (track_filament_usage remote self)) = false)
  /\ (forall (remote : http_request -> HttpResponse) (self : SpoolManager),
         (forall req, has_error (remote req) = true /\ status_code (remote req) = 404) ->
         flush_ready self = true ->
         _error_logged (final (track_filament_usage remote self)) = false
         /\ extruded (final (track_filament_usage remote self)) = extruded self)
  /\ (forall self : SpoolManager,
         _error_logged (final (websocket_connected self)) = false).
Proof.
  split; [|split; [|split; [|split; [|split]]]].
  - intros remote self Hfail.
    assert (Hsent : forall id : Z,
               spool_id self = Some id ->
               flush_ready self = true ->
               requests (trace (track_filament_usage remote self))
               = [usage_request self id]
               /\ failure_logs (trace (track_filament_usage remote self))
                  = (if _error_logged self then []
                     else [_get_response_error (remote (usage_request self id))])).
    { intros id Hs Hready.
      apply flush_ready_selected in Hready as (_ & He & Hc).
      rewrite (flush_sends remote self id Hs He Hc). cbn [trace].
      pose proof (Hfail (usage_request self id)) as Hone.
      unfold is_transient_failure in Hone.
      apply andb_true_iff in Hone as [Herr Hcode]. apply negb_true_iff in Hcode.
      rewrite Herr, Hcode. now destruct (_error_logged self). }
    destruct (flush_ready self) eqn:Hready.
    + destruct (flush_transient remote self Hfail Hready) as (Hres & Hfin & Hlen).
      rewrite Hres, Hfin, Hlen. cbn [andb].
      split; [reflexivity|]. split; [reflexivity|]. split; [reflexivity|].
      split; [now destruct (_error_logged self)|]. split; [reflexivity|].
      intros id Hs _. now apply Hsent.
    + destruct (flush_not_ready remote self Hready) as (Hres & Hfin & Hnil).
      rewrite Hres, Hfin, Hnil.
      split; [reflexivity|]. split; [reflexivity|]. split; [reflexivity|].
      split; [reflexivity|]. split; [discriminate|].
      intros id _ Hno. discriminate Hno.
  - intros remotes self Hall. now apply flushes_transient.
  - intros remotes self id Hall Hs He Hc.
    destruct (flushes_ready_transient remotes Hall self id Hs He Hc)
      as (_ & Hlogs & Hreqs).
    now split.
  - intros remote self Hok Hready.
    apply flush_ready_selected in Hready as ([id Hs] & He & Hc).
    rewrite (flush_sends remote self id Hs He Hc). cbn [final].
    rewrite Hok. reflexivity.
  - intros remote self H404 Hready.
    apply flush_ready_selected in Hready as ([id Hs] & He & Hc).
    rewrite (flush_sends remote self id Hs He Hc). cbn [final].
    destruct (H404 (usage_request self id)) as [-> ->]. now split.
  - intros self. unfold websocket_connected. run.
    cbn [spool_id set_error_logged set_ws_connected].
    destruct (spool_id self); reflexivity.
Qed.

Lemma C2_witness :
  extruded (final (flushes [answer 500 true "Internal Server Error";
                            answer 503 true "Service Unavailable";
                            answer 500 true "Internal Server Error"] tracking))
  = extruded tracking
  /\ failure_logs (trace (flushes [answer 500 true "Internal Server Error";
                                   answer 503 true "Service Unavailable";
                                   answer 500 true "Internal Server Error"] tracking))
     = [_get_response_error (answer 500 true "Internal Server Error"
                               (usage_request tracking 1))]
  /\ _error_logged (final (track_filament_usage (answer 404 true "Not Found")
                             (set_error_logged true tracking))) = false.
Proof.
  pose proof C2_transient_failure_keeps_pending_usage
    as (_ & Hkeep & Hfirst & _ & Hgone & _).
  assert (Hall : Forall (fun remote : http_request -> HttpResponse =>
                           forall req, is_transient_failure (remote req) = true)
                   [answer 500 true "Internal Server Error";
                    answer 503 true "Service Unavailable";
                    answer 500 true "Internal Server Error"])
    by (repeat constructor).
  split; [|split].
  - now destruct (Hkeep _ tracking Hall) as (_ & Hext & _).
  - destruct (Hfirst _ tracking 1 Hall eq_refl eq_refl eq_refl) as (Hlogs & _).
    exact Hlogs.
  - destruct (Hgone (answer 404 true "Not Found") (set_error_logged true tracking))
      as (Hflag & _); [intros req; split; reflexivity | vm_compute; reflexivity |].
    exact Hflag.
Defined.

(** ** Selecting the active spool *)

Lemma select_same (remote : http_request -> HttpResponse) (self : SpoolManager)
    (arg : spool_arg) :
  spool_id self = match arg with MISSING => None | Id i => i end ->
  set_active_spool remote arg self
  = {| res := Ok tt; final := self;
       trace := [Log INFO (SpoolAlreadySet (spool_id self))] |}.
Proof.
  intros Hs. unfold set_active_spool.
  destruct arg as [|i]; run; rewrite bool_decide_true by done;
    cbn [res final trace]; now rewrite Hs.
Qed.

(** A deletion-driven clear of a selected spool: no flush. *)
Lemma clear_selected (remote : http_request -> HttpResponse) (self : SpoolManager)
    (id : Z) :
  spool_id self = Some id ->
  set_active_spool remote MISSING self
  = {| res := Ok tt; final := set_spool_id None self;
       trace := selection_changed None |}.
Proof.
  intros Hs. unfold set_active_spool. run.
  rewrite bool_decide_false by (rewrite Hs; discriminate).
  reflexivity.
Qed.

(** A switch away from a selected spool: the flush runs first, whatever
    comes of it, then the selection changes. *)
Lemma switch_from_selected (remote : http_request -> HttpResponse)
    (self : SpoolManager) (a : Z) (new_id : option Z) :
  spool_id self = Some a ->
  new_id <> Some a ->
  set_active_spool remote (Id new_id) self
  = {| res := Ok tt;
       final := set_spool_id new_id (final (track_filament_usage remote self));
       trace := trace (track_filament_usage remote self)
                ++ selection_changed new_id |}.
Proof.
  intros Hs Hne. unfold set_active_spool. run.
  rewrite bool_decide_false by (rewrite Hs; congruence).
  rewrite Hs. cbn [negb].
  assert (Hok : res (track_filament_usage remote self) = Ok tt).
  { destruct (flush_ready self) eqn:Hready.
    - apply flush_ready_selected in Hready as ([id Hid] & He & Hc).
      now rewrite (flush_sends remote self id Hid He Hc).
    - now apply flush_not_ready. }
  rewrite Hok. reflexivity.
Qed.

Lemma select_from_none (remote : http_request -> HttpResponse)
    (self : SpoolManager) (b : Z) :
  spool_id self = None ->
  set_active_spool remote (Id (Some b)) self
  = {| res := Ok tt;
       final := set_spool_id (Some b) (set_extruded 0%float self);
       trace := selection_changed (Some b) |}.
Proof.
  intros Hs. unfold set_active_spool. run.
  rewrite bool_decide_false by (rewrite Hs; discriminate).
  rewrite Hs. reflexivity.
Qed.

(** C6.  Selecting the id that is already selected ([None] included, when
    nothing is selected) returns normally with the state unchanged and
    nothing but the log record: no request, no write to the database, no
    notification. *)
Theorem C6_selecting_current_spool_is_noop
    (remote : http_request -> HttpResponse) (self : SpoolManager) :
  set_active_spool remote (Id (spool_id self)) self
  = {| res := Ok tt; final := self;
       trace := [Log INFO (SpoolAlreadySet (spool_id self))] |}
  /\ requests (trace (set_active_spool remote (Id (spool_id self)) self)) = []
  /\ db_writes (trace (set_active_spool remote (Id (spool_id self)) self)) = []
  /\ notifications (trace (set_active_spool remote (Id (spool_id self)) self)) = [].
Proof.
  rewrite (select_same remote self (Id (spool_id self)) eq_refl).
  now repeat split.
Qed.

(** C4.  A flush answered by a 404 keeps the pending amount and spawns one
    clear of the active spool; the liveness check answered by a 404 runs
    the clear itself.  The clear of a selected spool sets the selection to
    [None] with one write to the database and one notification, and without
    any request.  A clear that finds the selection already [None] changes
    nothing and only logs: no request, no write, no notification; so does
    any clear repeated after a first one. *)
Theorem C4_not_found_clears_active_spool_once :
  (forall (remote : http_request -> HttpResponse) (self : SpoolManager) (id : Z),
      spool_id self = Some id ->
      PrimFloat.ltb 0%float (extruded self) = true ->
      ws_connected self = true ->
      has_error (remote (usage_request self id)) = true ->
      status_code (remote (usage_request self id)) = 404 ->
      spawned (trace (track_filament_usage remote self)) = [SetActiveSpoolTask MISSING]
      /\ extruded (final (track_filament_usage remote self)) = extruded self
      /\ forall remote' : http_request -> HttpResponse,
          spool_id (final (run_task remote' (SetActiveSpoolTask MISSING)
                             (final (track_filament_usage remote self)))) = None
          /\ trace (run_task remote' (SetActiveSpoolTask MISSING)
                      (final (track_filament_usage remote self)))
             = selection_changed None)
  /\ (forall (remote : http_request -> HttpResponse) (self : SpoolManager) (id : Z),
         spool_id self = Some id ->
         status_code (remote (check_request self id)) = 404 ->
         res (_check_spool_deleted remote self) = Ok tt
         /\ final (_check_spool_deleted remote self) = set_spool_id None self
         /\ trace (_check_spool_deleted remote self)
            = ([Http (check_request self id); Log INFO (SpoolNotFound (Some id))]
               ++ selection_changed None)%list)
  /\ (forall (remote : http_request -> HttpResponse) (self : SpoolManager),
         spool_id self = None ->
         set_active_spool remote MISSING self
         = {| res := Ok tt; final := self;
              trace := [Log INFO (SpoolAlreadySet None)] |})
  /\ (forall (remote remote' : http_request -> HttpResponse) (self : SpoolManager),
         set_active_spool remote' MISSING (final (set_active_spool remote MISSING self))
         = {| res := Ok tt; final := final (set_active_spool remote MISSING self);
              trace := [Log INFO (SpoolAlreadySet None)] |}).
Proof.
  split; [|split; [|split]].
  - intros remote self id Hs He Hc Herr H404.
    rewrite (flush_sends remote self id Hs He Hc), Herr, H404.
    cbn [final trace Z.eqb Pos.eqb]. repeat split.
    + cbn [run_task].
      now rewrite (clear_selected remote' (set_error_logged false self) id Hs).
    + cbn [run_task].
      now rewrite (clear_selected remote' (set_error_logged false self) id Hs).
  - intros remote self id Hs H404. unfold _check_spool_deleted. run.
    rewrite Hs. fold (check_request self id). rewrite H404.
    cbn [Z.eqb Pos.eqb res final trace].
    now rewrite (clear_selected remote self id Hs).
  - intros remote self Hs.
    rewrite (select_same remote self MISSING Hs). now rewrite Hs.
  - intros remote remote' self.
    assert (Hnone : spool_id (final (set_active_spool remote MISSING self)) = None).
    { destruct (spool_id self) as [id|] eqn:Hs.
      - now rewrite (clear_selected remote self id Hs).
      - now rewrite (select_same remote self MISSING Hs). }
    rewrite (select_same remote' _ MISSING Hnone). now rewrite Hnone.
Qed.

Lemma C4_witness :
  spawned (trace (track_filament_usage (answer 404 true "Not Found") tracking))
  = [SetActiveSpoolTask MISSING]
  /\ final (_check_spool_deleted (answer 404 true "Not Found") tracking)
     = set_spool_id None tracking
  /\ set_active_spool (answer 404 true "Not Found") MISSING fresh
     = {| res := Ok tt; final := fresh;
          trace := [Log INFO (SpoolAlreadySet None)] |}.
Proof.
  split; [|split].
  - apply (proj1 C4_not_found_clears_active_spool_once
             (answer 404 true "Not Found") tracking 1);
      vm_compute; reflexivity.
  - apply (proj1 (proj2 C4_not_found_clears_active_spool_once)
             (answer 404 true "Not Found") tracking 1);
      vm_compute; reflexivity.
  - apply (proj1 (proj2 (proj2 C4_not_found_clears_active_spool_once))
             (answer 404 true "Not Found") fresh).
    reflexivity.
Defined.

(** Switching from spool 1, with 5 mm pending, to spool 2 while the
    websocket is down: nothing is sent, spool 2 becomes active, and the
    5 mm are still pending. *)
Lemma C5_counterexample :
  spool_id offline = Some 1
  /\ PrimFloat.ltb 0%float (extruded offline) = true
  /\ requests (trace (set_active_spool (answer 200 false "") (Id (Some 2)) offline)) = []
  /\ spool_id (final (set_active_spool (answer 200 false "") (Id (Some 2)) offline))
     = Some 2
  /\ extruded (final (set_active_spool (answer 200 false "") (Id (Some 2)) offline))
     = 5%float
  /\ PrimFloat.eqb
       (extruded (final (set_active_spool (answer 200 false "") (Id (Some 2)) offline)))
       0%float = false.
Proof. vm_compute. repeat split; reflexivity. Qed.

(** C5 (amended).  Every switch from a selected spool [a] to another
    selection that is not driven by a deletion runs the flush for [a]
    first and changes the selection after it.  When the pending amount is
    greater than zero, the websocket is connected and the server accepts
    the report, exactly that amount is reported for [a] before the new
    selection is persisted and announced, and the new selection starts with
    nothing pending.  A switch from no selection to a spool sets the
    pending amount to zero and sends nothing. *)
Theorem C5_switch_flushes_then_selects :
  (forall (remote : http_request -> HttpResponse) (self : SpoolManager)
          (a : Z) (new_id : option Z),
      spool_id self = Some a ->
      new_id <> Some a ->
      set_active_spool remote (Id new_id) self
      = {| res := Ok tt;
           final := set_spool_id new_id (final (track_filament_usage remote self));
           trace := trace (track_filament_usage remote self)
                    ++ selection_changed new_id |})
  /\ (forall (remote : http_request -> HttpResponse) (self : SpoolManager)
             (a : Z) (new_id : option Z),
         spool_id self = Some a ->
         new_id <> Some a ->
         PrimFloat.ltb 0%float (extruded self) = true ->
         ws_connected self = true ->
         has_error (remote (usage_request self a)) = false ->
         set_active_spool remote (Id new_id) self
         = {| res := Ok tt;
              final := set_spool_id new_id
                         (set_extruded 0%float (set_error_logged false self));
              trace := [Log DEBUG (SendingSpoolUsage a (extruded self));
                        Http (usage_request self a)]
                       ++ selection_changed new_id |})
  /\ (forall (remote : http_request -> HttpResponse) (self : SpoolManager) (b : Z),
         spool_id self = None ->
         set_active_spool remote (Id (Some b)) self
         = {| res := Ok tt;
              final := set_spool_id (Some b) (set_extruded 0%float self);
              trace := selection_changed (Some b) |}).
Proof.
  split; [|split].
  - intros remote self a new_id Hs Hne.
    exact (switch_from_selected remote self a new_id Hs Hne).
  - intros remote self a new_id Hs Hne He Hc Hok.
    rewrite (switch_from_selected remote self a new_id Hs Hne).
    rewrite (flush_sends remote self a Hs He Hc), Hok.
    cbn [final trace]. now rewrite app_nil_r.
  - intros remote self b Hs. now apply select_from_none.
Qed.

Lemma C5_witness :
  set_active_spool (answer 200 false "") (Id (Some 2)) tracking
  = {| res := Ok tt;
       final := set_spool_id (Some 2)
                  (set_extruded 0%float (set_error_logged false tracking));
       trace := [Log DEBUG (SendingSpoolUsage 1 (extruded tracking));
                 Http (usage_request tracking 1)]
                ++ selection_changed (Some 2) |}
  /\ set_active_spool (answer 200 false "") (Id (Some 2)) fresh
     = {| res := Ok tt;
          final := set_spool_id (Some 2) (set_extruded 0%float fresh);
          trace := selection_changed (Some 2) |}.
Proof.
  split.
  - apply (proj1 (proj2 C5_switch_flushes_then_selects)
             (answer 200 false "") tracking 1 (Some 2));
      try (vm_compute; reflexivity).
    discriminate.
  - apply (proj2 (proj2 C5_switch_flushes_then_selects)
             (answer 200 false "") fresh 2).
    reflexivity.
Defined.

(** ** The proxy endpoint *)

(** The path test of the proxy, [len(path) < 4 or path[:4] != "/v1/"],
    fails exactly on the paths that begin with ["/v1/"]. *)
Lemma path_test_prefix (path : string) :
  (String.length path <? 4)%nat
  || negb (bool_decide (String.substring 0 4 path = "/v1/"))
  = negb (String.prefix "/v1/" path).
Proof.
  destruct (String.prefix "/v1/" path) eqn:Hp.
  - apply String.prefix_correct in Hp. cbn [String.length] in Hp.
    rewrite bool_decide_true by exact Hp.
    destruct path as [|c1 [|c2 [|c3 [|c4 rest]]]]; try discriminate Hp.
    reflexivity.
  - rewrite bool_decide_false; [apply orb_true_r|].
    intros Hs. apply (String.prefix_correct "/v1/" path) in Hs. congruence.
Qed.

(** C7.  The proxy endpoint raises a server error, with the state unchanged
    and without any call on a collaborator, for a method outside GET, POST,
    PUT, PATCH and DELETE, for a GET that carries a body, and for a path
    that does not begin with ["/v1/"].  A request that passes the three
    tests while the websocket is not connected raises the error of status
    503, again with the state unchanged and nothing sent. *)
Theorem C7_proxy_rejects_before_forwarding
    (remote : http_request -> HttpResponse) (self : SpoolManager) (w : WebRequest) :
  (request_method w ∉ ["GET"; "POST"; "PUT"; "PATCH"; "DELETE"]
   \/ (body w <> None /\ request_method w = "GET")
   \/ String.prefix "/v1/" (path w) = false ->
   exists msg : string,
     _proxy_spoolman_request remote w self
     = {| res := Raise (ServerError msg None); final := self; trace := [] |})
  /\ (request_method w ∈ ["GET"; "POST"; "PUT"; "PATCH"; "DELETE"] ->
      body w = None \/ request_method w <> "GET" ->
      String.prefix "/v1/" (path w) = true ->
      ws_connected self = false ->
      _proxy_spoolman_request remote w self
      = {| res := Raise (ServerError "Spoolman server not available" (Some 503));
           final := self; trace := [] |}).
Proof.
  unfold _proxy_spoolman_request. rewrite path_test_prefix. split.
  - intros H.
    destruct (bool_decide (request_method w ∈ ["GET"; "POST"; "PUT"; "PATCH"; "DELETE"]))
      eqn:Hm; cbn [negb]; [|eexists; reflexivity].
    apply bool_decide_eq_true in Hm.
    destruct (bool_decide (body w <> None) && bool_decide (request_method w = "GET"))
      eqn:Hb; [eexists; reflexivity|].
    destruct (String.prefix "/v1/" (path w)) eqn:Hp; cbn [negb];
      [|eexists; reflexivity].
    exfalso. destruct H as [H|[[H1 H2]|H]]; [done| |discriminate].
    rewrite !bool_decide_true in Hb by done. discriminate.
  - intros Hm Hb Hp Hc.
    rewrite bool_decide_true by done. cbn [negb].
    replace (bool_decide (body w <> None) && bool_decide (request_method w = "GET"))
      with false.
    2:{ destruct Hb as [Hb|Hb].
        - rewrite bool_decide_false; [reflexivity|]. now rewrite Hb.
        - rewrite (bool_decide_false (request_method w = "GET")) by done.
          now rewrite andb_false_r. }
    rewrite Hp. cbn [negb]. run. now rewrite Hc.
Qed.

Lemma C7_witness :
  (exists msg : string,
      _proxy_spoolman_request (answer 200 false "")
        {| request_method := "GET"; path := "/v1/spool/1"; query := None;
           body := Some (JDict ∅) |} tracking
      = {| res := Raise (ServerError msg None); final := tracking; trace := [] |})
  /\ _proxy_spoolman_request (answer 200 false "")
       {| request_method := "GET"; path := "/v1/spool/1"; query := None;
          body := None |} offline
     = {| res := Raise (ServerError "Spoolman server not available" (Some 503));
          final := offline; trace := [] |}.
Proof.
  split.
  - apply (proj1 (C7_proxy_rejects_before_forwarding (answer 200 false "") tracking
             {| request_method := "GET"; path := "/v1/spool/1"; query := None;
                body := Some (JDict ∅) |})).
    right; left. split; [discriminate | reflexivity].
  - apply (proj2 (C7_proxy_rejects_before_forwarding (answer 200 false "") offline
             {| request_method := "GET"; path := "/v1/spool/1"; query := None;
                body := None |})).
    + cbn [request_method]. apply list_elem_of_here.
    + left; reflexivity.
    + reflexivity.
    + reflexivity.
Defined.

(** ** The event decoder *)

(** Two frames on which the decoder raises while spool 1 is selected: the
    JSON text [[]], which is not an object, and the deletion event
    [{"resource": "spool", "type": "deleted", "payload": 1}], whose payload
    is not an object. *)
Lemma C8_counterexample :
  res (_decode_event (JList []) tracking) = Raise AttributeError
  /\ res (_decode_event
            (JDict {[ "resource" := JStr "spool"; "type" := JStr "deleted";
                      "payload" := JInt 1 ]}) tracking)
     = Raise AttributeError.
Proof. split; vm_compute; reflexivity. Qed.

Lemma decode_object (self : SpoolManager) (event : gmap string json) :
  (is_spool_deletion event = true -> spool_id self <> None ->
   payload_is_object event = true) ->
  _decode_event (JDict event) self
  = {| res := Ok tt; final := self;
       trace := if is_spool_deletion event && payload_names_selected self event
                then [CreateTask (SetActiveSpoolTask MISSING)] else [] |}.
Proof.
  unfold is_spool_deletion, payload_is_object, payload_names_selected,
    _decode_event, py_get.
  run.
  destruct (py_eq_str (default JNull (event !! "resource")) "spool");
    cbn [negb andb]; [|reflexivity].
  destruct (spool_id self) as [id|]; cbn [res final trace].
  2:{ intros _. now rewrite andb_false_r. }
  destruct (py_eq_str (default JNull (event !! "type")) "deleted");
    cbn [andb res final trace]; [|reflexivity].
  intros Hp. specialize (Hp eq_refl ltac:(discriminate)).
  destruct (event !! "payload") as [[| | | | | |payload]|];
    try discriminate Hp; cbn [default from_option Datatypes.id res final trace].
  - destruct (py_eq_int _ id); reflexivity.
  - rewrite lookup_empty. reflexivity.
Qed.

Lemma decode_non_object (event : json) (self : SpoolManager) :
  (forall d, event <> JDict d) ->
  _decode_event event self
  = {| res := Raise AttributeError; final := self; trace := [] |}.
Proof.
  intros Hne. unfold _decode_event, py_get. run.
  destruct event; try reflexivity. now destruct (Hne d).
Qed.

Lemma decode_bad_payload (self : SpoolManager) (event : gmap string json) :
  is_spool_deletion event = true ->
  spool_id self <> None ->
  payload_is_object event = false ->
  _decode_event (JDict event) self
  = {| res := Raise AttributeError; final := self; trace := [] |}.
Proof.
  unfold is_spool_deletion, payload_is_object, _decode_event, py_get.
  intros [Hr Ht]%andb_true_iff Hs Hp. run. rewrite Hr. cbn [negb res final trace].
  destruct (spool_id self) as [id|]; [|done]. cbn [res final trace].
  rewrite Ht. cbn [res final trace].
  destruct (event !! "payload") as [[| | | | | |payload]|];
    try discriminate Hp; reflexivity.
Qed.

(** C8 (amended).  For every text message that decodes to a JSON object,
    the decoder returns normally with the state unchanged and calls nothing
    when the [resource] of the event is not ["spool"], whatever else the
    object holds.  When, besides, the payload of a spool deletion event met
    while a spool is selected is an object or is absent, the decoder
    returns normally with the state unchanged, and it spawns the clear of
    the active spool, as a task that it does not wait for, exactly when the
    event is a spool deletion whose payload [id] equals the selected spool
    id; it calls nothing otherwise.  Every other message raises, with the
    state unchanged and nothing called: a text that is not JSON, a JSON
    text that is not an object, and a spool deletion event met while a
    spool is selected whose payload is neither an object nor absent. *)
Theorem C8_decoder_clears_on_deletion_of_selected
    (loads : string -> option json) (message : string) (self : SpoolManager) :
  (forall event : gmap string json,
      loads message = Some (JDict event) ->
      (py_eq_str (default JNull (event !! "resource")) "spool" = false ->
       _decode_message loads message self
       = {| res := Ok tt; final := self; trace := [] |})
      /\ ((is_spool_deletion event = true -> spool_id self <> None ->
           payload_is_object event = true) ->
          _decode_message loads message self
          = {| res := Ok tt; final := self;
               trace := if is_spool_deletion event
                           && payload_names_selected self event
                        then [CreateTask (SetActiveSpoolTask MISSING)] else [] |}))
  /\ (loads message = None ->
      _decode_message loads message self
      = {| res := Raise JSONDecodeError; final := self; trace := [] |})
  /\ (forall event : json,
         loads message = Some event ->
         (forall d, event <> JDict d) ->
         _decode_message loads message self
         = {| res := Raise AttributeError; final := self; trace := [] |})
  /\ (forall event : gmap string json,
         loads message = Some (JDict event) ->
         is_spool_deletion event = true ->
         spool_id self <> None ->
         payload_is_object event = false ->
         _decode_message loads message self
         = {| res := Raise AttributeError; final := self; trace := [] |}).
Proof.
  unfold _decode_message. split; [|split; [|split]].
  - intros event Hl. rewrite Hl. split.
    + intros Hr. rewrite decode_object.
      * unfold is_spool_deletion. now rewrite Hr.
      * unfold is_spool_deletion. rewrite Hr. discriminate.
    + apply decode_object.
  - intros ->. reflexivity.
  - intros event -> Hne. now apply decode_non_object.
  - intros event -> Hd Hs Hp. now apply decode_bad_payload.
Qed.

Lemma C8_witness :
  _decode_message (fun _ => Some (JDict spool_1_deleted)) "{...}" tracking
  = {| res := Ok tt; final := tracking;
       trace := [CreateTask (SetActiveSpoolTask MISSING)] |}
  /\ _decode_message (fun _ => Some (JDict vendor_1_deleted)) "{...}" tracking
     = {| res := Ok tt; final := tracking; trace := [] |}
  /\ _decode_message (fun _ => None) "not json" tracking
     = {| res := Raise JSONDecodeError; final := tracking; trace := [] |}
  /\ _decode_message (fun _ => Some (JList [])) "[]" tracking
     = {| res := Raise AttributeError; final := tracking; trace := [] |}
  /\ _decode_message
       (fun _ => Some (JDict (<["payload" := JInt 1]> spool_1_deleted))) "{...}"
       tracking
     = {| res := Raise AttributeError; final := tracking; trace := [] |}.
Proof.
  pose proof (proj2 (proj1 (C8_decoder_clears_on_deletion_of_selected
                (fun _ => Some (JDict spool_1_deleted)) "{...}" tracking)
                spool_1_deleted eq_refl)) as Hspool.
  pose proof (proj1 (proj1 (C8_decoder_clears_on_deletion_of_selected
                (fun _ => Some (JDict vendor_1_deleted)) "{...}" tracking)
                vendor_1_deleted eq_refl)) as Hvendor.
  pose proof (proj1 (proj2 (C8_decoder_clears_on_deletion_of_selected
                (fun _ => None) "not json" tracking))) as Hjson.
  pose proof (proj1 (proj2 (proj2 (C8_decoder_clears_on_deletion_of_selected
                (fun _ => Some (JList [])) "[]" tracking)))) as Hlist.
  pose proof (proj2 (proj2 (proj2 (C8_decoder_clears_on_deletion_of_selected
                (fun _ => Some (JDict (<["payload" := JInt 1]> spool_1_deleted)))
                "{...}" tracking)))) as Hpayload.
  split; [|split; [|split; [|split]]].
  - rewrite Hspool; [|intros _ _]; vm_compute; reflexivity.
  - rewrite Hvendor; vm_compute; reflexivity.
  - apply Hjson. reflexivity.
  - apply (Hlist (JList [])); [reflexivity | discriminate].
  - apply (Hpayload (<["payload" := JInt 1]> spool_1_deleted));
      try reflexivity; try discriminate; vm_compute; reflexivity.
Defined.

(** ** The sync period *)

(** Spool 1 selected, 5 mm pending, connected, last sync at time 0 and a
    sync rate of 5 s.  A minute later a status update without a position,
    or with the position where it was, sends nothing and leaves the state
    as it was; and an advancing sample that arrives exactly 5 s after the
    last sync sends nothing either. *)
Lemma C9_counterexample :
  total_seconds_gt (60000000 - last_sync_time tracking) (sync_rate_seconds tracking)
  = true
  /\ _handle_status_update (answer 200 false "") ∅ 60000000 tracking
     = {| res := Ok tt; final := tracking; trace := [] |}
  /\ _handle_status_update (answer 200 false "") (toolhead_at 0%float) 60000000 tracking
     = {| res := Ok tt; final := tracking; trace := [] |}
  /\ requests (trace (_handle_status_update (answer 200 false "")
                        (toolhead_at 3%float) 5000000 tracking)) = []
  /\ last_sync_time (final (_handle_status_update (answer 200 false "")
                        (toolhead_at 3%float) 5000000 tracking)) = 0.
Proof. vm_compute. repeat split; reflexivity. Qed.

(** C9 (amended).  The component has no timer of its own: the sync period
    is looked at only while a status update is handled whose position
    sample advances the highest position.  A status update without such a
    sample changes nothing and calls nothing, however long ago the last
    sync was.  An advancing sample is accumulated; for a sync rate of at
    least one second and below [2^32] seconds, when strictly more than the
    sync rate has elapsed since the last sync time, that time becomes the
    present and the flush runs; otherwise nothing else happens. *)
Theorem C9_sync_only_with_advancing_sample
    (remote : http_request -> HttpResponse) (self : SpoolManager)
    (status : gmap string (gmap string (list float))) (now : datetime) :
  (advances self (_eposition_from_status status) = false ->
   _handle_status_update remote status now self
   = {| res := Ok tt; final := self; trace := [] |})
  /\ (forall e : float,
         _eposition_from_status status = Some e ->
         advances self (Some e) = true ->
         1 <= sync_rate_seconds self < 2 ^ 32 ->
         now - last_sync_time self <= sync_rate_seconds self * 1000000 ->
         _handle_status_update remote status now self
         = {| res := Ok tt; final := accumulate e self; trace := [] |})
  /\ (forall e : float,
         _eposition_from_status status = Some e ->
         advances self (Some e) = true ->
         1 <= sync_rate_seconds self < 2 ^ 32 ->
         sync_rate_seconds self * 1000000 < now - last_sync_time self ->
         _handle_status_update remote status now self
         = {| res := res (track_filament_usage remote
                            (set_last_sync_time now (accumulate e self)));
              final := final (track_filament_usage remote
                                (set_last_sync_time now (accumulate e self)));
              trace := Log DEBUG SyncPeriodElapsed
                       :: trace (track_filament_usage remote
                                   (set_last_sync_time now (accumulate e self))) |}).
Proof.
  unfold _handle_status_update. split; [|split].
  - intros Ha. run.
    destruct (_eposition_from_status status) as [e|]; [|reflexivity].
    now rewrite Ha.
  - intros e He Ha _ Hle. rewrite He. run. rewrite Ha. cbn [res final trace].
    unfold total_seconds_gt.
    cbn [last_sync_time sync_rate_seconds accumulate set_highest_epos set_extruded].
    rewrite (proj2 (Z.ltb_ge _ _) Hle). reflexivity.
  - intros e He Ha _ Hlt. rewrite He. run. rewrite Ha. cbn [res final trace].
    unfold total_seconds_gt.
    cbn [last_sync_time sync_rate_seconds accumulate set_highest_epos set_extruded].
    rewrite (proj2 (Z.ltb_lt _ _) Hlt). cbn [res final trace].
    destruct (track_filament_usage remote _) as [[[]|err] fin tr]; reflexivity.
Qed.

Lemma C9_witness :
  _handle_status_update (answer 200 false "") (toolhead_at 0%float) 60000000 tracking
  = {| res := Ok tt; final := tracking; trace := [] |}
  /\ _handle_status_update (answer 200 false "") (toolhead_at 3%float) 5000000 tracking
     = {| res := Ok tt; final := accumulate 3%float tracking; trace := [] |}
  /\ requests (trace (_handle_status_update (answer 200 false "")
                        (toolhead_at 3%float) 5000001 tracking))
     = [usage_request (accumulate 3%float tracking) 1].
Proof.
  pose proof (C9_sync_only_with_advancing_sample (answer 200 false "") tracking
                (toolhead_at 0%float) 60000000) as (Hidle & _ & _).
  pose proof (C9_sync_only_with_advancing_sample (answer 200 false "") tracking
                (toolhead_at 3%float) 5000000) as (_ & Hearly & _).
  pose proof (C9_sync_only_with_advancing_sample (answer 200 false "") tracking
                (toolhead_at 3%float) 5000001) as (_ & _ & Hdue).
  split; [|split].
  - apply Hidle. vm_compute. reflexivity.
  - apply (Hearly 3%float); try (vm_compute; reflexivity).
    + vm_compute. split; [discriminate | reflexivity].
    + vm_compute. discriminate.
  - rewrite (Hdue 3%float); try (vm_compute; reflexivity).
    vm_compute. split; [discriminate | reflexivity].
Defined.

(** ** The printer becomes ready *)

Lemma float_ltb_irrefl (x : float) : PrimFloat.ltb x x = false.
Proof.
  rewrite FloatAxioms.ltb_spec. unfold SFltb.
  pose proof (SFcompare_antisym (Prim2SF x) (Prim2SF x)) as H.
  destruct (SFcompare (Prim2SF x) (Prim2SF x)) as [[]|]; try reflexivity.
  discriminate H.
Qed.

Lemma eposition_reported (status : gmap string (gmap string (list float)))
    (toolhead : gmap string (list float)) (position : list float) (e : float) :
  status !! "toolhead" = Some toolhead ->
  toolhead !! "position" = Some position ->
  position !! 3%nat = Some e ->
  _eposition_from_status status = Some e.
Proof.
  intros Ht Hp He. unfold _eposition_from_status.
  rewrite Ht. cbn [default from_option Datatypes.id]. rewrite Hp.
  cbn [default from_option Datatypes.id].
  apply lookup_lt_Some in He as Hlen.
  rewrite (proj2 (Nat.ltb_lt _ _) Hlen). exact He.
Qed.

(** C10.  When the result of the subscription reports a toolhead position
    with an extruder coordinate [e], [_handle_klippy_ready] returns normally
    with the highest position set to [e] and nothing else changed, the
    pending amount in particular; a later sample at that same position is
    not counted as usage.  When no extruder position can be read from the
    result, the handler raises a server error, and leaves the state, the
    highest position with it, as it was. *)
Theorem C10_ready_starts_from_reported_position
    (self : SpoolManager) (result : gmap string (gmap string (list float))) :
  (forall (toolhead : gmap string (list float)) (position : list float) (e : float),
      result !! "toolhead" = Some toolhead ->
      toolhead !! "position" = Some position ->
      position !! 3%nat = Some e ->
      res (_handle_klippy_ready result self) = Ok tt
      /\ final (_handle_klippy_ready result self) = set_highest_epos e self
      /\ extruded (final (_handle_klippy_ready result self)) = extruded self
      /\ observe (final (_handle_klippy_ready result self)) (Some e)
         = final (_handle_klippy_ready result self))
  /\ (_eposition_from_status result = None ->
      res (_handle_klippy_ready result self)
      = Raise (ServerError "Unable to subscribe to e position" None)
      /\ final (_handle_klippy_ready result self) = self
      /\ trace (_handle_klippy_ready result self)
         = [SubscribeObjects; Log DEBUG (InitialEpos None); Log ERROR UnableToSubscribe]).
Proof.
  unfold _handle_klippy_ready. split.
  - intros toolhead position e Ht Hp He.
    rewrite (eposition_reported result toolhead position e Ht Hp He).
    run. repeat split.
    apply observe_ignored. apply float_ltb_irrefl.
  - intros Hnone. rewrite Hnone. run. now repeat split.
Qed.

Lemma C10_witness :
  final (_handle_klippy_ready (toolhead_at 120.5%float) fresh)
  = set_highest_epos 120.5%float fresh
  /\ res (_handle_klippy_ready ∅ fresh)
     = Raise (ServerError "Unable to subscribe to e position" None).
Proof.
  pose proof (C10_ready_starts_from_reported_position fresh (toolhead_at 120.5%float))
    as [Hset _].
  pose proof (C10_ready_starts_from_reported_position fresh ∅) as [_ Hraise].
  split.
  - apply (Hset {[ "position" := [0%float; 0%float; 0%float; 120.5%float] ]}
             [0%float; 0%float; 0%float; 120.5%float] 120.5%float);
      vm_compute; reflexivity.
  - apply Hraise. vm_compute. reflexivity.
Defined.

(** ** The server option *)

Lemma dot_plus_single_line (h : string) :
  single_line h = true -> dot_plus h = h.
Proof.
  induction h as [|c h IH]; [reflexivity|].
  cbn [single_line dot_plus]. intros [Hc Hh]%andb_true_iff.
  apply negb_true_iff in Hc. rewrite Hc. now rewrite IH.
Qed.

Lemma dot_plus_empty (u : string) :
  dot_plus u = "" <-> u = "" \/ exists rest, u = String "010" rest.
Proof.
  destruct u as [|c rest]; cbn [dot_plus].
  - split; auto.
  - unfold is_newline. destruct (Ascii.eqb c "010") eqn:Hc.
    + apply Ascii.eqb_eq in Hc as ->. split; eauto.
    + split; [discriminate|]. intros [H|[r H]]; [discriminate|].
      injection H as -> _. now rewrite Ascii.eqb_refl in Hc.
Qed.

Lemma strip_sep_some (s rest : string) :
  strip_sep s = Some rest <-> s = "://" +:+ rest.
Proof.
  unfold strip_sep. split.
  - destruct s as [|c1 [|c2 [|c3 r]]]; try discriminate.
    destruct (Ascii.eqb c1 ":") eqn:H1; [|discriminate].
    destruct (Ascii.eqb c2 "/") eqn:H2; [|discriminate].
    destruct (Ascii.eqb c3 "/") eqn:H3; [|discriminate].
    apply Ascii.eqb_eq in H1, H2, H3. subst. now intros [= ->].
  - intros ->. reflexivity.
Qed.

(** The scheme is captured as it is written. *)
Lemma match_scheme_verbatim (u scheme rest : string) :
  match_scheme u = Some (scheme, rest) -> u = scheme +:+ "://" +:+ rest.
Proof.
  unfold match_scheme.
  destruct u as [|c1 [|c2 [|c3 [|c4 r]]]]; try discriminate.
  destruct (_ && _); [|discriminate].
  destruct r as [|s [|s' r']]; try discriminate.
  destruct (ci "s" "S" s).
  - destruct (strip_sep (String s' r')) as [x|] eqn:Hs; [|discriminate].
    intros [= <- <-]. apply strip_sep_some in Hs. cbn. now rewrite Hs.
  - destruct (_ && _).
    + destruct (strip_sep r') as [x|] eqn:Hs; [|discriminate].
      intros [= <- <-]. apply strip_sep_some in Hs. cbn. now rewrite Hs.
    + destruct (strip_sep (String s (String s' r'))) as [x|] eqn:Hs; [|discriminate].
      intros [= <- <-]. apply strip_sep_some in Hs. cbn. now rewrite Hs.
Qed.

Lemma match_scheme_contains_sep (u : string) (p : string * string) :
  match_scheme u = Some p -> contains_sep u = true.
Proof.
  destruct p as [scheme rest]. intros ->%match_scheme_verbatim.
  induction scheme as [|c scheme IH]; [reflexivity|].
  change (String c scheme +:+ "://" +:+ rest)
    with (String c (scheme +:+ "://" +:+ rest)).
  cbn [contains_sep].
  match goal with |- context [strip_sep ?x] => destruct (strip_sep x) end;
    [reflexivity|exact IH].
Qed.

Lemma url_match_none (u : string) : url_match u = None <-> dot_plus u = "".
Proof.
  unfold url_match. split.
  - destruct (match_scheme u) as [[scheme rest]|];
      [destruct (dot_plus rest); [|discriminate]|];
      destruct (dot_plus u); congruence.
  - intros Hu. rewrite Hu.
    assert (Hm : match_scheme u = None).
    { apply dot_plus_empty in Hu as [->|[rest ->]]; [reflexivity|].
      destruct rest as [|c2 [|c3 [|c4 r]]]; reflexivity. }
    now rewrite Hm.
Qed.

(** X1.  The [server] option is refused, with the configuration error,
    exactly when it is empty or begins with a newline; every other text
    gives the two URLs. *)
Theorem X1_server_option_refused_iff_no_first_line (orig_url : string) :
  (exists msg, _get_spoolman_urls orig_url = ConfigError msg)
  <-> (orig_url = "" \/ exists rest, orig_url = String "010" rest).
Proof.
  rewrite <- dot_plus_empty, <- url_match_none. unfold _get_spoolman_urls.
  destruct (url_match orig_url) as [[scheme host]|]; split; eauto.
  - intros [msg H]. discriminate H.
  - discriminate.
Qed.

Lemma rstrip_slash_app_slash (h : string) :
  rstrip_slash (h +:+ "/") = rstrip_slash h.
Proof.
  induction h as [|c h IH]; [reflexivity|].
  change (String c h +:+ "/") with (String c (h +:+ "/")).
  cbn [rstrip_slash]. now rewrite IH.
Qed.

Lemma rstrip_slash_no_trailing (s h : string) : rstrip_slash s <> h +:+ "/".
Proof.
  revert h. induction s as [|c s IH]; intros h.
  - destruct h; discriminate.
  - cbn [rstrip_slash]. destruct (rstrip_slash s) as [|c' s'] eqn:Hs.
    + destruct (Ascii.eqb c "/") eqn:Hc.
      * destruct h; discriminate.
      * destruct h as [|c1 h]; cbn.
        -- intros [= ->]. now rewrite Ascii.eqb_refl in Hc.
        -- intros [= _ H]. destruct h; discriminate.
    + destruct h as [|c1 h]; cbn.
      * discriminate.
      * intros [= _ H]. now apply (IH h).
Qed.

Lemma single_line_app_slash (h : string) :
  single_line (h +:+ "/") = single_line h.
Proof.
  induction h as [|c h IH]; [reflexivity|].
  change (String c h +:+ "/") with (String c (h +:+ "/")).
  cbn [single_line]. now rewrite IH.
Qed.

Lemma url_match_with_scheme (u scheme h : string) :
  match_scheme u = Some (scheme, h) ->
  h <> "" -> single_line h = true ->
  url_match u = Some (Some scheme, h).
Proof.
  intros Hm Hne Hl. unfold url_match.
  rewrite Hm, (dot_plus_single_line h Hl). now destruct h.
Qed.

Lemma url_match_without_scheme (h : string) :
  contains_sep h = false ->
  h <> "" -> single_line h = true ->
  url_match h = Some (None, h).
Proof.
  intros Hs Hne Hl. unfold url_match.
  destruct (match_scheme h) as [p|] eqn:Hm.
  { apply match_scheme_contains_sep in Hm. congruence. }
  rewrite (dot_plus_single_line h Hl). now destruct h.
Qed.

Lemma urls_with_scheme (h : string) :
  h <> "" -> single_line h = true ->
  _get_spoolman_urls ("https://" +:+ h)
  = Urls ("https://" +:+ rstrip_slash h +:+ "/api")
         ("wss://" +:+ rstrip_slash h +:+ "/api/v1/spool")
  /\ _get_spoolman_urls ("http://" +:+ h)
     = Urls ("http://" +:+ rstrip_slash h +:+ "/api")
            ("ws://" +:+ rstrip_slash h +:+ "/api/v1/spool").
Proof.
  intros Hne Hl. unfold _get_spoolman_urls. split.
  - now rewrite (url_match_with_scheme ("https://" +:+ h) "https" h eq_refl Hne Hl).
  - now rewrite (url_match_with_scheme ("http://" +:+ h) "http" h eq_refl Hne Hl).
Qed.

(** X2.  For a host text [h] that is not empty and holds no newline: the
    option [https://h] gives the base [https://h'/api] and the websocket
    address [wss://h'/api/v1/spool], the option [http://h] gives
    [http://h'/api] and [ws://h'/api/v1/spool], and so does the bare [h]
    when it holds no [://]; [h'] is [h] without its trailing slashes. *)
Theorem X2_server_option_urls (h : string) :
  h <> "" -> single_line h = true ->
  _get_spoolman_urls ("https://" +:+ h)
  = Urls ("https://" +:+ rstrip_slash h +:+ "/api")
         ("wss://" +:+ rstrip_slash h +:+ "/api/v1/spool")
  /\ _get_spoolman_urls ("http://" +:+ h)
     = Urls ("http://" +:+ rstrip_slash h +:+ "/api")
            ("ws://" +:+ rstrip_slash h +:+ "/api/v1/spool")
  /\ (contains_sep h = false ->
      _get_spoolman_urls h
      = Urls ("http://" +:+ rstrip_slash h +:+ "/api")
             ("ws://" +:+ rstrip_slash h +:+ "/api/v1/spool")).
Proof.
  intros Hne Hl. destruct (urls_with_scheme h Hne Hl) as [Hs Hp].
  split; [exact Hs|]. split; [exact Hp|].
  intros Hsep. unfold _get_spoolman_urls.
  now rewrite (url_match_without_scheme h Hsep Hne Hl).
Qed.

Lemma X2_witness :
  _get_spoolman_urls "https://spoolman.local:7912//"
  = Urls "https://spoolman.local:7912/api" "wss://spoolman.local:7912/api/v1/spool"
  /\ _get_spoolman_urls "192.168.1.20:7912"
     = Urls "http://192.168.1.20:7912/api" "ws://192.168.1.20:7912/api/v1/spool".
Proof.
  pose proof (X2_server_option_urls "spoolman.local:7912//") as Hs.
  pose proof (X2_server_option_urls "192.168.1.20:7912") as Hb.
  split.
  - apply Hs; [discriminate | reflexivity].
  - apply Hb; [discriminate | reflexivity | reflexivity].
Defined.

(** X3.  The host of both URLs never ends with a slash, and both URLs are
    built on the same host: every accepted option gives
    [scheme://host/api] and [ws-scheme://host/api/v1/spool] for one [host]
    that is not of the form [h/].  Hence a slash added to a host that
    follows [http://] or [https://] changes neither URL. *)
Theorem X3_server_option_trailing_slashes :
  (forall orig_url spoolman_url ws_url : string,
      _get_spoolman_urls orig_url = Urls spoolman_url ws_url ->
      exists scheme ws_scheme host : string,
        spoolman_url = scheme +:+ "://" +:+ host +:+ "/api"
        /\ ws_url = ws_scheme +:+ "://" +:+ host +:+ "/api/v1/spool"
        /\ forall h : string, host <> h +:+ "/")
  /\ (forall h : string,
         h <> "" -> single_line h = true ->
         _get_spoolman_urls ("https://" +:+ h +:+ "/")
         = _get_spoolman_urls ("https://" +:+ h)
         /\ _get_spoolman_urls ("http://" +:+ h +:+ "/")
            = _get_spoolman_urls ("http://" +:+ h)).
Proof.
  split.
  - intros orig_url url ws. unfold _get_spoolman_urls.
    destruct (url_match orig_url) as [[scheme host]|]; [|discriminate].
    intros [= <- <-]. eexists _, _, (rstrip_slash host).
    split; [reflexivity|]. split; [reflexivity|].
    intros h. apply rstrip_slash_no_trailing.
  - intros h Hne Hl.
    assert (Hne' : h +:+ "/" <> "") by (destruct h; discriminate).
    assert (Hl' : single_line (h +:+ "/") = true)
      by now rewrite single_line_app_slash.
    destruct (urls_with_scheme h Hne Hl) as (H1 & H2).
    destruct (urls_with_scheme (h +:+ "/") Hne' Hl') as (H1' & H2').
    rewrite H1, H2, H1', H2', rstrip_slash_app_slash. now split.
Qed.

Lemma X3_witness :
  _get_spoolman_urls ("https://" +:+ "printer.lan:7912" +:+ "/")
  = _get_spoolman_urls ("https://" +:+ "printer.lan:7912")
  /\ exists scheme ws_scheme host : string,
      "http://printer.lan/api" = scheme +:+ "://" +:+ host +:+ "/api"
      /\ "ws://printer.lan/api/v1/spool"
         = ws_scheme +:+ "://" +:+ host +:+ "/api/v1/spool"
      /\ forall h : string, host <> h +:+ "/".
Proof.
  split.
  - apply (proj2 X3_server_option_trailing_slashes "printer.lan:7912");
      [discriminate | reflexivity].
  - apply (proj1 X3_server_option_trailing_slashes "printer.lan///").
    reflexivity.
Defined.

Lemma url_match_scheme (u scheme host : string) :
  url_match u = Some (Some scheme, host) ->
  exists rest, match_scheme u = Some (scheme, rest).
Proof.
  unfold url_match.
  destruct (match_scheme u) as [[s r]|].
  - destruct (dot_plus r).
    + destruct (dot_plus u); discriminate.
    + intros [= <- _]. eauto.
  - destruct (dot_plus u); discriminate.
Qed.

(** X4.  The websocket address is secure only for an option written with
    the lower-case scheme: when the address begins with [wss://] the option
    begins with [https://], and an option [https://] followed by a first
    line that is not empty gives an address that begins with [wss://].
    The scheme is matched without regard to case but kept as written and
    compared with ["https"] as it is: the option [HTTPS://h] gives the base
    [HTTPS://h'/api] with the address [ws://h'/api/v1/spool]. *)
Theorem X4_secure_websocket_iff_lower_case_https :
  (forall orig_url spoolman_url ws_url : string,
      _get_spoolman_urls orig_url = Urls spoolman_url ws_url ->
      String.prefix "wss://" ws_url = true ->
      exists rest, orig_url = "https://" +:+ rest)
  /\ (forall rest : string,
         dot_plus rest <> "" ->
         exists spoolman_url ws_url,
           _get_spoolman_urls ("https://" +:+ rest) = Urls spoolman_url ws_url
           /\ String.prefix "wss://" ws_url = true)
  /\ (forall h : string,
         h <> "" -> single_line h = true ->
         _get_spoolman_urls ("HTTPS://" +:+ h)
         = Urls ("HTTPS://" +:+ rstrip_slash h +:+ "/api")
                ("ws://" +:+ rstrip_slash h +:+ "/api/v1/spool")).
Proof.
  split; [|split].
  - intros u url ws. unfold _get_spoolman_urls.
    destruct (url_match u) as [[scheme host]|] eqn:Hm; [|discriminate].
    intros [= <- <-].
    destruct (bool_decide (default "http" scheme = "https")) eqn:Hs;
      [|discriminate].
    apply bool_decide_eq_true in Hs.
    destruct scheme as [scheme|]; [|discriminate Hs]. cbn in Hs. subst scheme.
    intros _. destruct (url_match_scheme u "https" host Hm) as [rest Hr].
    exists rest. now apply match_scheme_verbatim in Hr.
  - intros rest Hne.
    assert (Hm : url_match ("https://" +:+ rest) = Some (Some "https", dot_plus rest)).
    { assert (Hs : match_scheme ("https://" +:+ rest) = Some ("https", rest))
        by reflexivity.
      unfold url_match. rewrite Hs.
      destruct (dot_plus rest) eqn:Hd; [done | reflexivity]. }
    unfold _get_spoolman_urls. rewrite Hm.
    eexists _, _. split; [reflexivity|].
    cbn [default from_option Datatypes.id].
    rewrite bool_decide_true by reflexivity.
    destruct (rstrip_slash (dot_plus rest)); reflexivity.
  - intros h Hne Hl. unfold _get_spoolman_urls.
    now rewrite (url_match_with_scheme ("HTTPS://" +:+ h) "HTTPS" h eq_refl Hne Hl).
Qed.

Lemma X4_witness :
  (exists rest, "https://spoolman.local" = "https://" +:+ rest)
  /\ _get_spoolman_urls ("HTTPS://" +:+ "spoolman.local")
     = Urls "HTTPS://spoolman.local/api" "ws://spoolman.local/api/v1/spool".
Proof.
  split.
  - apply (proj1 X4_secure_websocket_iff_lower_case_https
             "https://spoolman.local" "https://spoolman.local/api"
             "wss://spoolman.local/api/v1/spool"); reflexivity.
  - apply (proj2 (proj2 X4_secure_websocket_iff_lower_case_https) "spoolman.local");
      [discriminate | reflexivity].
Defined.

(** ** Reading the extruder position *)

(** X5.  [_eposition_from_status] gives the fourth coordinate of
    [status["toolhead"]["position"]] exactly when the status has a
    [toolhead] with a [position] of at least four coordinates; a status
    without [toolhead], a toolhead without [position] and a shorter
    position all give [None]. *)
Theorem X5_eposition_is_fourth_coordinate
    (status : gmap string (gmap string (list float))) (e : float) :
  _eposition_from_status status = Some e
  <-> exists (toolhead : gmap string (list float)) (position : list float),
        status !! "toolhead" = Some toolhead
        /\ toolhead !! "position" = Some position
        /\ position !! 3%nat = Some e.
Proof.
  split.
  - unfold _eposition_from_status.
    destruct (status !! "toolhead") as [toolhead|] eqn:Ht;
      cbn [default from_option Datatypes.id].
    + destruct (toolhead !! "position") as [position|] eqn:Hp;
        cbn [default from_option Datatypes.id].
      * destruct (3 <? length position)%nat; [|discriminate].
        intros He. eauto.
      * discriminate.
    + rewrite lookup_empty. discriminate.
  - intros (toolhead & position & Ht & Hp & He).
    exact (eposition_reported status toolhead position e Ht Hp He).
Qed.

(** ** Samples at or below the highest position *)

Lemma float_ltb_asym (a b : float) :
  PrimFloat.ltb a b = true -> PrimFloat.ltb b a = false.
Proof.
  rewrite !FloatAxioms.ltb_spec. unfold SFltb.
  rewrite (SFcompare_antisym (Prim2SF a) (Prim2SF b)).
  destruct (SFcompare (Prim2SF a) (Prim2SF b)) as [[]|]; simpl; congruence.
Qed.

Lemma status_update_ignored (remote : http_request -> HttpResponse)
    (status : gmap string (gmap string (list float))) (now : datetime)
    (self : SpoolManager) :
  advances self (_eposition_from_status status) = false ->
  _handle_status_update remote status now self
  = {| res := Ok tt; final := self; trace := [] |}.
Proof.
  intros Ha. unfold _handle_status_update. run.
  destruct (_eposition_from_status status) as [e|]; [|reflexivity].
  now rewrite Ha.
Qed.

(** X6.  While the reported extruder position stays at or below the highest
    position, as after the printer has reset or retracted it, status
    updates count nothing and look at no sync period, however many they are
    and whatever the time: the state is unchanged and nothing is called. *)
Theorem X6_updates_below_highest_change_nothing
    (calls : list ((http_request -> HttpResponse) * call)) (self : SpoolManager) :
  Forall (fun rc => exists status now,
              rc.2 = StatusUpdate status now
              /\ match _eposition_from_status status with
                 | Some p => PrimFloat.leb p (_highest_epos self) = true
                 | None => True
                 end) calls ->
  run_calls calls self = (self, []).
Proof.
  induction 1 as [|[remote c] rest (status & now & Hc & Hp) _ IH]; [reflexivity|].
  cbn [snd] in Hc. subst c. cbn [run_calls perform].
  rewrite status_update_ignored.
  - cbn [final trace]. now rewrite IH.
  - destruct (_eposition_from_status status) as [p|]; [|reflexivity].
    unfold advances. rewrite (float_leb_not_gt _ _ Hp). apply andb_false_r.
Qed.

Lemma X6_witness :
  run_calls [(answer 200 false "", StatusUpdate (toolhead_at 2%float) 60000000);
             (answer 200 false "", StatusUpdate ∅ 120000000);
             (answer 200 false "", StatusUpdate (toolhead_at 7.5%float) 180000000)]
    (set_highest_epos 7.5%float tracking)
  = (set_highest_epos 7.5%float tracking, []).
Proof.
  apply X6_updates_below_highest_change_nothing.
  repeat constructor; eexists _, _; (split; [reflexivity|]); vm_compute; reflexivity.
Defined.

(** ** What each coroutine does, case by case *)

Lemma setters_same (self : SpoolManager) :
  set_extruded (extruded self) (set_error_logged (_error_logged self) self) = self.
Proof. now destruct self. Qed.

(** A flush whose guards do not pass. *)
Lemma flush_idle (remote : http_request -> HttpResponse) (self : SpoolManager) :
  flush_ready self = false ->
  track_filament_usage remote self
  = {| res := Ok tt; final := self;
       trace := match spool_id self with
                | None => [Log DEBUG NoActiveSpool]
                | Some _ => []
                end |}.
Proof.
  unfold flush_ready, track_filament_usage. run.
  destruct (spool_id self) as [id|]; [|reflexivity].
  rewrite bool_decide_true by done. cbn [andb].
  now intros ->.
Qed.

(** Every flush: what it leaves alone and what it may send. *)
Lemma flush_facts (remote : http_request -> HttpResponse) (self : SpoolManager) :
  res (track_filament_usage remote self) = Ok tt
  /\ (exists b x, final (track_filament_usage remote self)
                  = set_extruded x (set_error_logged b self)
                  /\ (x = extruded self \/ x = 0%float))
  /\ db_writes (trace (track_filament_usage remote self)) = []
  /\ notifications (trace (track_filament_usage remote self)) = []
  /\ (requests (trace (track_filament_usage remote self)) = []
      \/ exists id, spool_id self = Some id
                    /\ PrimFloat.ltb 0%float (extruded self) = true
                    /\ ws_connected self = true
                    /\ requests (trace (track_filament_usage remote self))
                       = [usage_request self id])
  /\ (spawned (trace (track_filament_usage remote self)) = []
      \/ spawned (trace (track_filament_usage remote self))
         = [SetActiveSpoolTask MISSING]).
Proof.
  destruct (flush_ready self) eqn:Hready.
  - apply flush_ready_selected in Hready as ([id Hs] & He & Hc).
    rewrite (flush_sends remote self id Hs He Hc). cbn [res final trace].
    split; [reflexivity|].
    destruct (has_error (remote (usage_request self id))).
    + destruct (status_code (remote (usage_request self id)) =? 404).
      * split; [exists false, (extruded self); split; [now destruct self | now left]|].
        repeat split; try reflexivity; [right; eauto | now right].
      * destruct (_error_logged self) eqn:Hl.
        -- split; [exists true, (extruded self); split;
                   [rewrite <- Hl; now rewrite setters_same | now left]|].
           repeat split; try reflexivity; [right; eauto | now left].
        -- split; [exists true, (extruded self); split; [now destruct self | now left]|].
           repeat split; try reflexivity; [right; eauto | now left].
    + split; [exists false, 0%float; split; [reflexivity | now right]|].
      repeat split; try reflexivity; [right; eauto | now left].
  - rewrite (flush_idle remote self Hready). cbn [res final trace].
    split; [reflexivity|].
    split; [exists (_error_logged self), (extruded self); split;
            [now rewrite setters_same | now left]|].
    destruct (spool_id self); repeat split; try reflexivity; now left.
Qed.

(** X8.  A flush, whatever the server answers, returns normally and leaves
    the selection, the highest position, the last sync time, the connection
    flag and the configuration as they were; it writes nothing to the
    database and notifies nobody.  It sends nothing, or else the one report
    of the pending amount for the selected spool, and that only while
    connected and for an amount greater than zero.  The pending amount is
    afterwards what it was, or zero. *)
Theorem X8_flush_frame_and_single_report
    (remote : http_request -> HttpResponse) (self : SpoolManager) :
  res (track_filament_usage remote self) = Ok tt
  /\ spool_id (final (track_filament_usage remote self)) = spool_id self
  /\ _highest_epos (final (track_filament_usage remote self)) = _highest_epos self
  /\ last_sync_time (final (track_filament_usage remote self)) = last_sync_time self
  /\ ws_connected (final (track_filament_usage remote self)) = ws_connected self
  /\ spoolman_url (final (track_filament_usage remote self)) = spoolman_url self
  /\ sync_rate_seconds (final (track_filament_usage remote self))
     = sync_rate_seconds self
  /\ db_writes (trace (track_filament_usage remote self)) = []
  /\ notifications (trace (track_filament_usage remote self)) = []
  /\ (requests (trace (track_filament_usage remote self)) = []
      \/ exists id, spool_id self = Some id
                    /\ PrimFloat.ltb 0%float (extruded self) = true
                    /\ ws_connected self = true
                    /\ requests (trace (track_filament_usage remote self))
                       = [usage_request self id])
  /\ (extruded (final (track_filament_usage remote self)) = extruded self
      \/ extruded (final (track_filament_usage remote self)) = 0%float).
Proof.
  destruct (flush_facts remote self)
    as (Hres & (b & x & Hfin & Hx) & Hdb & Hnot & Hreq & _).
  repeat split; try assumption; rewrite Hfin; try reflexivity.
  exact Hx.
Qed.

(** X9.  A report that the server accepts is not sent twice: right after a
    flush that sent the pending amount and met no error, the pending amount
    is zero and a second flush, whatever the server would answer, sends
    nothing and changes nothing. *)
Theorem X9_accepted_report_is_not_repeated
    (remote remote' : http_request -> HttpResponse) (self : SpoolManager) (id : Z) :
  spool_id self = Some id ->
  PrimFloat.ltb 0%float (extruded self) = true ->
  ws_connected self = true ->
  has_error (remote (usage_request self id)) = false ->
  requests (trace (track_filament_usage remote self)) = [usage_request self id]
  /\ extruded (final (track_filament_usage remote self)) = 0%float
  /\ track_filament_usage remote' (final (track_filament_usage remote self))
     = {| res := Ok tt; final := final (track_filament_usage remote self);
          trace := [] |}.
Proof.
  intros Hs He Hc Hok.
  rewrite (flush_sends remote self id Hs He Hc), Hok. cbn [final trace].
  repeat split.
  rewrite flush_idle.
  - cbn [spool_id set_extruded set_error_logged]. now rewrite Hs.
  - unfold flush_ready. cbn [extruded set_extruded].
    replace (PrimFloat.ltb 0%float 0%float) with false by reflexivity.
    now rewrite andb_false_r.
Qed.

Lemma X9_witness :
  requests (trace (track_filament_usage (answer 200 false "") tracking))
  = [usage_request tracking 1]
  /\ extruded (final (track_filament_usage (answer 200 false "") tracking)) = 0%float
  /\ track_filament_usage (answer 500 true "Internal Server Error")
       (final (track_filament_usage (answer 200 false "") tracking))
     = {| res := Ok tt;
          final := final (track_filament_usage (answer 200 false "") tracking);
          trace := [] |}.
Proof.
  apply (X9_accepted_report_is_not_repeated (answer 200 false "")
           (answer 500 true "Internal Server Error") tracking 1);
    vm_compute; reflexivity.
Defined.

Lemma trace_readers_app (t1 t2 : list effect) :
  requests (t1 ++ t2) = (requests t1 ++ requests t2)%list
  /\ db_writes (t1 ++ t2) = (db_writes t1 ++ db_writes t2)%list
  /\ notifications (t1 ++ t2) = (notifications t1 ++ notifications t2)%list
  /\ spawned (t1 ++ t2) = (spawned t1 ++ spawned t2)%list.
Proof.
  unfold requests, db_writes, notifications, spawned.
  now rewrite !omap_app.
Qed.

(** Every call of [set_active_spool]. *)
Lemma select_facts (remote : http_request -> HttpResponse) (arg : spool_arg)
    (self : SpoolManager) :
  res (set_active_spool remote arg self) = Ok tt
  /\ spool_id (final (set_active_spool remote arg self)) = requested_id arg
  /\ (ws_connected (final (set_active_spool remote arg self)) = ws_connected self
      /\ spoolman_url (final (set_active_spool remote arg self)) = spoolman_url self
      /\ sync_rate_seconds (final (set_active_spool remote arg self))
         = sync_rate_seconds self
      /\ _highest_epos (final (set_active_spool remote arg self))
         = _highest_epos self
      /\ last_sync_time (final (set_active_spool remote arg self))
         = last_sync_time self)
  /\ ((spool_id self = requested_id arg
       /\ final (set_active_spool remote arg self) = self
       /\ db_writes (trace (set_active_spool remote arg self)) = []
       /\ notifications (trace (set_active_spool remote arg self)) = [])
      \/ (spool_id self <> requested_id arg
          /\ db_writes (trace (set_active_spool remote arg self))
             = [(DB_NAMESPACE, ACTIVE_SPOOL_KEY, requested_id arg)]
          /\ notifications (trace (set_active_spool remote arg self))
             = [(ACTIVE_SPOOL_SET, requested_id arg)]))
  /\ (requests (trace (set_active_spool remote arg self)) = []
      \/ exists id, spool_id self = Some id
                    /\ arg <> MISSING
                    /\ PrimFloat.ltb 0%float (extruded self) = true
                    /\ ws_connected self = true
                    /\ requests (trace (set_active_spool remote arg self))
                       = [usage_request self id])
  /\ (extruded (final (set_active_spool remote arg self)) = extruded self
      \/ extruded (final (set_active_spool remote arg self)) = 0%float).
Proof.
  destruct (decide (spool_id self = requested_id arg)) as [Heq|Hne].
  { rewrite (select_same remote self arg Heq). cbn [res final trace].
    repeat split; auto; try (left; now repeat split). }
  destruct arg as [|new_id]; cbn [requested_id] in *.
  - destruct (spool_id self) as [id|] eqn:Hs; [|done].
    rewrite (clear_selected remote self id Hs). cbn [res final trace].
    repeat split; auto; try (right; now repeat split).
  - destruct (spool_id self) as [a|] eqn:Hs.
    + rewrite (switch_from_selected remote self a new_id Hs) by congruence.
      destruct (flush_facts remote self)
        as (_ & (b & x & Hfin & Hx) & Hdb & Hnot & Hreq & _).
      destruct (trace_readers_app (trace (track_filament_usage remote self))
                  (selection_changed new_id)) as (Hr & Hd & Hn & _).
      cbn [res final trace]. rewrite Hr, Hd, Hn, Hdb, Hnot, Hfin.
      split; [reflexivity|]. split; [reflexivity|].
      split; [now repeat split|].
      split; [right; now repeat split|].
      split; [|exact Hx].
      cbn [requests selection_changed omap]. rewrite app_nil_r.
      destruct Hreq as [Hreq|(id & Hid & He & Hc & Hreq)]; [now left|].
      right. exists id. repeat split; auto. congruence.
    + destruct new_id as [b|]; [|done].
      rewrite (select_from_none remote self b Hs). cbn [res final trace].
      repeat split; auto; try (right; now repeat split).
Qed.

(** X10.  Every call of [set_active_spool] returns normally with the
    requested id selected ([None] for a deleted spool).  When that id was
    already selected nothing else changes and nothing is written or
    announced; otherwise the new id is written to the database once and
    announced once.  At most one request is sent, the usage report for the
    spool that was selected, and never for a deleted spool.  The connection
    flag, the highest position, the last sync time and the configuration
    are untouched. *)
Theorem X10_select_always_ends_with_requested_id
    (remote : http_request -> HttpResponse) (arg : spool_arg) (self : SpoolManager) :
  res (set_active_spool remote arg self) = Ok tt
  /\ spool_id (final (set_active_spool remote arg self)) = requested_id arg
  /\ (ws_connected (final (set_active_spool remote arg self)) = ws_connected self
      /\ spoolman_url (final (set_active_spool remote arg self)) = spoolman_url self
      /\ sync_rate_seconds (final (set_active_spool remote arg self))
         = sync_rate_seconds self
      /\ _highest_epos (final (set_active_spool remote arg self))
         = _highest_epos self
      /\ last_sync_time (final (set_active_spool remote arg self))
         = last_sync_time self)
  /\ ((spool_id self = requested_id arg
       /\ final (set_active_spool remote arg self) = self
       /\ db_writes (trace (set_active_spool remote arg self)) = []
       /\ notifications (trace (set_active_spool remote arg self)) = [])
      \/ (spool_id self <> requested_id arg
          /\ db_writes (trace (set_active_spool remote arg self))
             = [(DB_NAMESPACE, ACTIVE_SPOOL_KEY, requested_id arg)]
          /\ notifications (trace (set_active_spool remote arg self))
             = [(ACTIVE_SPOOL_SET, requested_id arg)]))
  /\ (requests (trace (set_active_spool remote arg self)) = []
      \/ exists id, spool_id self = Some id
                    /\ arg <> MISSING
                    /\ PrimFloat.ltb 0%float (extruded self) = true
                    /\ ws_connected self = true
                    /\ requests (trace (set_active_spool remote arg self))
                       = [usage_request self id]).
Proof.
  destruct (select_facts remote arg self) as (H1 & H2 & H3 & H4 & H5 & _).
  repeat split; try assumption; apply H3.
Qed.

(** X11.  When the server answers 404 to the report sent during a switch
    from spool [a] to spool [b], the switch still selects, persists and
    announces [b], with the amount that was pending for [a] still pending,
    and it spawns the clear of the active spool.  That task, once run,
    clears the selection [b]: the database then holds [b] and after it
    [None], and no spool is selected. *)
Theorem X11_not_found_during_switch_clears_new_selection
    (remote remote' : http_request -> HttpResponse) (self : SpoolManager) (a b : Z) :
  spool_id self = Some a ->
  b <> a ->
  PrimFloat.ltb 0%float (extruded self) = true ->
  ws_connected self = true ->
  has_error (remote (usage_request self a)) = true ->
  status_code (remote (usage_request self a)) = 404 ->
  spool_id (final (set_active_spool remote (Id (Some b)) self)) = Some b
  /\ extruded (final (set_active_spool remote (Id (Some b)) self)) = extruded self
  /\ spawned (trace (set_active_spool remote (Id (Some b)) self))
     = [SetActiveSpoolTask MISSING]
  /\ spool_id (final (run_task remote' (SetActiveSpoolTask MISSING)
                        (final (set_active_spool remote (Id (Some b)) self)))) = None
  /\ db_writes (trace (set_active_spool remote (Id (Some b)) self)
                ++ trace (run_task remote' (SetActiveSpoolTask MISSING)
                            (final (set_active_spool remote (Id (Some b)) self))))
     = [(DB_NAMESPACE, ACTIVE_SPOOL_KEY, Some b);
        (DB_NAMESPACE, ACTIVE_SPOOL_KEY, None)].
Proof.
  intros Hs Hne He Hc Herr H404.
  rewrite (switch_from_selected remote self a (Some b) Hs) by congruence.
  rewrite (flush_sends remote self a Hs He Hc), Herr, H404.
  cbn [final trace Z.eqb Pos.eqb run_task].
  rewrite (clear_selected remote'
             (set_spool_id (Some b) (set_error_logged false self)) b eq_refl).
  cbn [final trace]. now repeat split.
Qed.

Lemma X11_witness :
  spool_id (final (set_active_spool (answer 404 true "Not Found") (Id (Some 2))
                     tracking)) = Some 2
  /\ spool_id (final (run_task (answer 200 false "") (SetActiveSpoolTask MISSING)
                        (final (set_active_spool (answer 404 true "Not Found")
                                  (Id (Some 2)) tracking)))) = None.
Proof.
  pose proof (X11_not_found_during_switch_clears_new_selection
                (answer 404 true "Not Found") (answer 200 false "") tracking 1 2)
    as H.
  destruct H as (H1 & _ & _ & H2 & _); try (vm_compute; reflexivity).
  - discriminate.
  - split; [exact H1 | exact H2].
Defined.



(** X13.  The selection endpoint: a POST answers with the id it was given
    and leaves that id selected, whatever became of the flush for the spool
    selected before; a GET answers with the selected id, changes nothing
    and calls nothing; so a GET after a POST answers with the posted id. *)
Theorem X13_spool_id_endpoint_round_trip
    (remote remote' : http_request -> HttpResponse) (self : SpoolManager)
    (posted ignored : option Z) :
  res (_handle_spool_id_request remote POST posted self) = Ok posted
  /\ spool_id (final (_handle_spool_id_request remote POST posted self)) = posted
  /\ _handle_spool_id_request remote GET ignored self
     = {| res := Ok (spool_id self); final := self; trace := [] |}
  /\ res (_handle_spool_id_request remote' GET ignored
            (final (_handle_spool_id_request remote POST posted self)))
     = Ok posted.
Proof.
  destruct (select_facts remote (Id posted) self) as (Hres & Hid & _).
  assert (Hpost : res (_handle_spool_id_request remote POST posted self) = Ok posted
                  /\ final (_handle_spool_id_request remote POST posted self)
                     = final (set_active_spool remote (Id posted) self)).
  { unfold _handle_spool_id_request. run. rewrite Hres. cbn [res final trace].
    now rewrite Hid. }
  destruct Hpost as [Hp Hf]. rewrite Hp, Hf, Hid.
  repeat split. unfold _handle_spool_id_request. run. now rewrite Hid.
Qed.

(** The liveness check of a selected spool, by the answer to its fetch. *)
Lemma check_selected (remote : http_request -> HttpResponse) (self : SpoolManager)
    (id : Z) :
  spool_id self = Some id ->
  _check_spool_deleted remote self
  = {| res := Ok tt;
       final := if status_code (remote (check_request self id)) =? 404
                then set_spool_id None self else self;
       trace := Http (check_request self id)
                :: (if status_code (remote (check_request self id)) =? 404
                    then Log INFO (SpoolNotFound (Some id)) :: selection_changed None
                    else if has_error (remote (check_request self id))
                         then [Log INFO (SpoolCheckFailed
                                 (_get_response_error (remote (check_request self id))))]
                         else [Log INFO (FoundSpool (Some id))]) |}.
Proof.
  intros Hs. unfold _check_spool_deleted. run. rewrite Hs.
  fold (check_request self id).
  destruct (status_code (remote (check_request self id)) =? 404);
    cbn [res final trace].
  - now rewrite (clear_selected remote self id Hs).
  - destruct (has_error (remote (check_request self id))); reflexivity.
Qed.

Lemma check_unselected (remote : http_request -> HttpResponse) (self : SpoolManager) :
  spool_id self = None ->
  _check_spool_deleted remote self = {| res := Ok tt; final := self; trace := [] |}.
Proof. intros Hs. unfold _check_spool_deleted. run. now rewrite Hs. Qed.

(** X14.  The liveness check sends nothing and changes nothing when no
    spool is selected.  For a selected spool it sends the one fetch of that
    spool, and on every answer other than a 404, an error or not, it leaves
    the whole state as it was, writes nothing to the database, notifies
    nobody and spawns nothing. *)
Theorem X14_liveness_check_keeps_spool_unless_not_found
    (remote : http_request -> HttpResponse) (self : SpoolManager) :
  (spool_id self = None ->
   _check_spool_deleted remote self = {| res := Ok tt; final := self; trace := [] |})
  /\ (forall id : Z,
         spool_id self = Some id ->
         status_code (remote (check_request self id)) <> 404 ->
         res (_check_spool_deleted remote self) = Ok tt
         /\ final (_check_spool_deleted remote self) = self
         /\ requests (trace (_check_spool_deleted remote self))
            = [check_request self id]
         /\ db_writes (trace (_check_spool_deleted remote self)) = []
         /\ notifications (trace (_check_spool_deleted remote self)) = []
         /\ spawned (trace (_check_spool_deleted remote self)) = []).
Proof.
  split; [apply check_unselected|].
  intros id Hs Hne. rewrite (check_selected remote self id Hs).
  apply Z.eqb_neq in Hne. rewrite Hne. cbn [res final trace].
  destruct (has_error (remote (check_request self id))); now repeat split.
Qed.

Lemma X14_witness :
  _check_spool_deleted (answer 500 true "Internal Server Error") fresh
  = {| res := Ok tt; final := fresh; trace := [] |}
  /\ final (_check_spool_deleted (answer 500 true "Internal Server Error") tracking)
     = tracking.
Proof.
  pose proof (X14_liveness_check_keeps_spool_unless_not_found
                (answer 500 true "Internal Server Error") fresh) as [Hnone _].
  pose proof (X14_liveness_check_keeps_spool_unless_not_found
                (answer 500 true "Internal Server Error") tracking) as [_ Hsel].
  split.
  - apply Hnone. reflexivity.
  - apply (Hsel 1); [reflexivity | vm_compute; discriminate].
Defined.

(** ** The proxy, case by case *)

Lemma proxy_cases (remote : http_request -> HttpResponse) (self : SpoolManager)
    (w : WebRequest) :
  (proxy_accepts w = false ->
   exists msg, _proxy_spoolman_request remote w self
               = {| res := Raise (ServerError msg None); final := self; trace := [] |})
  /\ (proxy_accepts w = true -> ws_connected self = false ->
      _proxy_spoolman_request remote w self
      = {| res := Raise (ServerError "Spoolman server not available" (Some 503));
           final := self; trace := [] |})
  /\ (proxy_accepts w = true -> ws_connected self = true ->
      _proxy_spoolman_request remote w self
      = {| res := if has_error (remote (forwarded self w))
                  then Raise (HTTPError (status_code (remote (forwarded self w))))
                  else match body_json (remote (forwarded self w)) with
                       | Some j => Ok j
                       | None => Raise JSONDecodeError
                       end;
           final := self;
           trace := [Log DEBUG (Proxying (request_method w)
                                  (req_url (forwarded self w)));
                     Http (forwarded self w)] |}).
Proof.
  unfold proxy_accepts, _proxy_spoolman_request. rewrite path_test_prefix.
  destruct (bool_decide (request_method w ∈ ["GET"; "POST"; "PUT"; "PATCH"; "DELETE"]));
    cbn [negb andb]; [|split; [eexists; reflexivity | split; discriminate]].
  destruct (bool_decide (body w <> None) && bool_decide (request_method w = "GET"));
    cbn [negb andb]; [split; [eexists; reflexivity | split; discriminate]|].
  destruct (String.prefix "/v1/" (path w));
    cbn [negb]; [|split; [eexists; reflexivity | split; discriminate]].
  split; [discriminate|]. run. split; intros _ ->; cbn [negb res final trace].
  - reflexivity.
  - unfold forwarded. cbn [req_url].
    destruct (has_error _); [reflexivity|].
    destruct (body_json _); reflexivity.
Qed.

(** X15.  The proxy never changes the state, writes to the database,
    notifies or spawns a task.  It forwards nothing unless its three tests
    pass and the websocket is connected; then it sends exactly one request,
    with the caller's method and body and the address made of the base, the
    path and the query after a question mark, and it answers with the
    decoded body of a response without error and raises on a response with
    an error. *)
Theorem X15_proxy_is_stateless_and_forwards_verbatim
    (remote : http_request -> HttpResponse) (self : SpoolManager) (w : WebRequest) :
  (final (_proxy_spoolman_request remote w self) = self
   /\ db_writes (trace (_proxy_spoolman_request remote w self)) = []
   /\ notifications (trace (_proxy_spoolman_request remote w self)) = []
   /\ spawned (trace (_proxy_spoolman_request remote w self)) = [])
  /\ (proxy_accepts w = false \/ ws_connected self = false ->
      requests (trace (_proxy_spoolman_request remote w self)) = [])
  /\ (proxy_accepts w = true -> ws_connected self = true ->
      requests (trace (_proxy_spoolman_request remote w self)) = [forwarded self w]
      /\ (forall j, has_error (remote (forwarded self w)) = false ->
                    body_json (remote (forwarded self w)) = Some j ->
                    res (_proxy_spoolman_request remote w self) = Ok j)
      /\ (has_error (remote (forwarded self w)) = true ->
          exists e, res (_proxy_spoolman_request remote w self) = Raise e)).
Proof.
  destruct (proxy_cases remote self w) as (Hrej & Hun & Hfw).
  destruct (proxy_accepts w) eqn:Ha.
  - destruct (ws_connected self) eqn:Hc.
    + rewrite (Hfw eq_refl eq_refl). cbn [res final trace].
      split; [now repeat split|]. split; [now intros [|]|].
      intros _ _. split; [reflexivity|]. split.
      * intros j -> ->. reflexivity.
      * intros ->. eauto.
    + rewrite (Hun eq_refl eq_refl). cbn [res final trace].
      split; [now repeat split|]. split; [reflexivity | discriminate].
  - destruct (Hrej eq_refl) as [msg ->]. cbn [res final trace].
    split; [now repeat split|]. split; [reflexivity | discriminate].
Qed.

Lemma X15_witness :
  requests (trace (_proxy_spoolman_request (answer 200 false "")
                     {| request_method := "GET"; path := "/v1/spool";
                        query := Some "limit=5"; body := None |} tracking))
  = [{| req_method := "GET";
        req_url := "http://spoolman.local/api/v1/spool?limit=5";
        req_body := None |}]
  /\ requests (trace (_proxy_spoolman_request (answer 200 false "")
                        {| request_method := "GET"; path := "/v1/spool";
                           query := Some "limit=5"; body := None |} offline)) = [].
Proof.
  pose proof (X15_proxy_is_stateless_and_forwards_verbatim (answer 200 false "")
                tracking {| request_method := "GET"; path := "/v1/spool";
                            query := Some "limit=5"; body := None |})
    as (_ & _ & Hon).
  pose proof (X15_proxy_is_stateless_and_forwards_verbatim (answer 200 false "")
                offline {| request_method := "GET"; path := "/v1/spool";
                           query := Some "limit=5"; body := None |})
    as (_ & Hoff & _).
  split.
  - destruct Hon as [Hreq _]; [vm_compute; reflexivity | reflexivity |].
    exact Hreq.
  - apply Hoff. right. reflexivity.
Defined.

(** ** Every call, in one statement *)

(** A status update whose sample advances the highest position. *)
Lemma status_update_advancing (remote : http_request -> HttpResponse)
    (status : gmap string (gmap string (list float))) (now : datetime)
    (self : SpoolManager) (e : float) :
  _eposition_from_status status = Some e ->
  advances self (Some e) = true ->
  _handle_status_update remote status now self
  = if total_seconds_gt (now - last_sync_time self) (sync_rate_seconds self)
    then {| res := res (track_filament_usage remote
                          (set_last_sync_time now (accumulate e self)));
            final := final (track_filament_usage remote
                              (set_last_sync_time now (accumulate e self)));
            trace := Log DEBUG SyncPeriodElapsed
                     :: trace (track_filament_usage remote
                                 (set_last_sync_time now (accumulate e self))) |}
    else {| res := Ok tt; final := accumulate e self; trace := [] |}.
Proof.
  intros He Ha. unfold _handle_status_update. rewrite He. run. rewrite Ha.
  cbn [res final trace].
  cbn [last_sync_time sync_rate_seconds accumulate set_highest_epos set_extruded].
  destruct (total_seconds_gt _ _); cbn [res final trace]; [|reflexivity].
  destruct (track_filament_usage remote _) as [[[]|err] fin tr]; reflexivity.
Qed.

(** The decoder never touches the state, raising or not, and calls nothing
    but the event loop, for the one clear. *)
Lemma decode_facts (event : json) (self : SpoolManager) :
  final (_decode_event event self) = self
  /\ (trace (_decode_event event self) = []
      \/ trace (_decode_event event self) = [CreateTask (SetActiveSpoolTask MISSING)]).
Proof.
  unfold _decode_event, py_get. run.
  destruct event; cbn [res final trace]; auto.
  destruct (py_eq_str _ "spool"); cbn [negb res final trace]; auto.
  destruct (spool_id self); cbn [res final trace]; auto.
  destruct (py_eq_str _ "deleted"); cbn [res final trace]; auto.
  destruct (default (JDict ∅) (d !! "payload")); cbn [res final trace]; auto.
  destruct (py_eq_int _ _); cbn [res final trace]; auto.
Qed.

Lemma websocket_connected_exact (self : SpoolManager) :
  websocket_connected self
  = {| res := Ok tt;
       final := set_error_logged false (set_ws_connected true self);
       trace := Log INFO ConnectedToSpoolman
                :: match spool_id self with
                   | Some _ => [CancelSpoolCheck; CreateTask CheckSpoolDeletedTask]
                   | None => []
                   end |}.
Proof.
  unfold websocket_connected. run.
  cbn [spool_id set_error_logged set_ws_connected].
  destruct (spool_id self); reflexivity.
Qed.

Lemma klippy_ready_facts (result : gmap string (gmap string (list float)))
    (self : SpoolManager) :
  (exists x, final (_handle_klippy_ready result self) = set_highest_epos x self)
  /\ requests (trace (_handle_klippy_ready result self)) = []
  /\ db_writes (trace (_handle_klippy_ready result self)) = []
  /\ notifications (trace (_handle_klippy_ready result self)) = [].
Proof.
  unfold _handle_klippy_ready. run.
  destruct (_eposition_from_status result) as [e|]; cbn [res final trace].
  - split; [now exists e | now repeat split].
  - split; [exists (_highest_epos self); now destruct self | now repeat split].
Qed.

(** What a status update leaves alone, and what it may send. *)
Lemma status_update_facts (remote : http_request -> HttpResponse)
    (status : gmap string (gmap string (list float))) (now : datetime)
    (self : SpoolManager) :
  spool_id (final (_handle_status_update remote status now self)) = spool_id self
  /\ ws_connected (final (_handle_status_update remote status now self))
     = ws_connected self
  /\ spoolman_url (final (_handle_status_update remote status now self))
     = spoolman_url self
  /\ sync_rate_seconds (final (_handle_status_update remote status now self))
     = sync_rate_seconds self
  /\ db_writes (trace (_handle_status_update remote status now self)) = []
  /\ notifications (trace (_handle_status_update remote status now self)) = []
  /\ (ws_connected self = false ->
      requests (trace (_handle_status_update remote status now self)) = [])
  /\ (_highest_epos (final (_handle_status_update remote status now self))
      = _highest_epos self
      \/ PrimFloat.ltb (_highest_epos self)
           (_highest_epos (final (_handle_status_update remote status now self)))
         = true).
Proof.
  destruct (advances self (_eposition_from_status status)) eqn:Ha.
  2:{ rewrite (status_update_ignored remote status now self Ha).
      cbn [res final trace]. repeat split; auto. }
  destruct (_eposition_from_status status) as [e|] eqn:He; [|discriminate Ha].
  rewrite (status_update_advancing remote status now self e He Ha).
  assert (Hlt : PrimFloat.ltb (_highest_epos self) e = true).
  { unfold advances in Ha. now apply andb_true_iff in Ha as [_ Hlt]. }
  destruct (total_seconds_gt _ _); cbn [res final trace].
  - destruct (flush_facts remote (set_last_sync_time now (accumulate e self)))
      as (_ & (b & x & Hfin & _) & Hdb & Hnot & Hreq & _).
    rewrite Hfin. cbn. unfold db_writes, notifications, requests in *.
    cbn [omap]. rewrite Hdb, Hnot. repeat split; auto.
    intros Hc. destruct Hreq as [Hreq|(id & _ & _ & Hc' & _)]; [exact Hreq|].
    cbn in Hc'. congruence.
  - cbn. repeat split; auto.
Qed.

Lemma then_ret_tt {A : Type} (c : M A) (self : SpoolManager) :
  final ((c;; mret tt) self) = final (c self)
  /\ trace ((c;; mret tt) self) = trace (c self).
Proof.
  run. destruct (res (c self)); cbn [res final trace]; [|done].
  now rewrite app_nil_r.
Qed.

Lemma spool_id_request_facts (remote : http_request -> HttpResponse)
    (t : RequestType) (a : option Z) (self : SpoolManager) :
  final (_handle_spool_id_request remote t a self)
  = match t with
    | POST => final (set_active_spool remote (Id a) self)
    | GET => self
    end
  /\ trace (_handle_spool_id_request remote t a self)
     = match t with
       | POST => trace (set_active_spool remote (Id a) self)
       | GET => []
       end.
Proof.
  unfold _handle_spool_id_request. destruct t; run; [done|].
  destruct (select_facts remote (Id a) self) as (-> & _).
  cbn [res final trace]. now rewrite app_nil_r.
Qed.

Lemma proxy_facts (remote : http_request -> HttpResponse) (self : SpoolManager)
    (w : WebRequest) :
  final (_proxy_spoolman_request remote w self) = self
  /\ db_writes (trace (_proxy_spoolman_request remote w self)) = []
  /\ notifications (trace (_proxy_spoolman_request remote w self)) = []
  /\ (ws_connected self = false ->
      requests (trace (_proxy_spoolman_request remote w self)) = []).
Proof.
  destruct (proxy_cases remote self w) as (Hrej & Hun & Hfw).
  destruct (proxy_accepts w) eqn:Ha.
  - destruct (ws_connected self) eqn:Hc.
    + rewrite (Hfw eq_refl eq_refl). now repeat split.
    + rewrite (Hun eq_refl eq_refl). now repeat split.
  - destruct (Hrej eq_refl) as [msg ->]. now repeat split.
Qed.

(** What any one call does to the configuration, the selection and its
    record in the database, the requests while disconnected, and the
    highest position. *)
Lemma perform_shape (remote : http_request -> HttpResponse) (c : call)
    (self : SpoolManager) :
  (spoolman_url (final (perform remote c self)) = spoolman_url self
   /\ sync_rate_seconds (final (perform remote c self)) = sync_rate_seconds self)
  /\ ((spool_id (final (perform remote c self)) = spool_id self
       /\ db_writes (trace (perform remote c self)) = []
       /\ notifications (trace (perform remote c self)) = [])
      \/ (selects c = true
          /\ db_writes (trace (perform remote c self))
             = [(DB_NAMESPACE, ACTIVE_SPOOL_KEY, spool_id (final (perform remote c self)))]
          /\ notifications (trace (perform remote c self))
             = [(ACTIVE_SPOOL_SET, spool_id (final (perform remote c self)))]))
  /\ (ignores_connection c = false -> ws_connected self = false ->
      requests (trace (perform remote c self)) = []
      /\ ws_connected (final (perform remote c self)) = false)
  /\ match c with
     | KlippyReady _ => True
     | _ => _highest_epos (final (perform remote c self)) = _highest_epos self
            \/ PrimFloat.ltb (_highest_epos self)
                 (_highest_epos (final (perform remote c self))) = true
     end.
Proof.
  assert (Hsel : forall arg,
    (spoolman_url (final (set_active_spool remote arg self)) = spoolman_url self
     /\ sync_rate_seconds (final (set_active_spool remote arg self))
        = sync_rate_seconds self)
    /\ ((spool_id (final (set_active_spool remote arg self)) = spool_id self
         /\ db_writes (trace (set_active_spool remote arg self)) = []
         /\ notifications (trace (set_active_spool remote arg self)) = [])
        \/ (db_writes (trace (set_active_spool remote arg self))
            = [(DB_NAMESPACE, ACTIVE_SPOOL_KEY,
                spool_id (final (set_active_spool remote arg self)))]
            /\ notifications (trace (set_active_spool remote arg self))
               = [(ACTIVE_SPOOL_SET,
                   spool_id (final (set_active_spool remote arg self)))]))
    /\ (ws_connected self = false ->
        requests (trace (set_active_spool remote arg self)) = []
        /\ ws_connected (final (set_active_spool remote arg self)) = false)
    /\ _highest_epos (final (set_active_spool remote arg self)) = _highest_epos self).
  { intros arg.
    destruct (select_facts remote arg self)
      as (_ & Hid & (Hws & Hurl & Hrate & Hhi & _) & Hrec & Hreq & _).
    split; [now split|]. split.
    - destruct Hrec as [(Heq & Hfin & Hdb & Hnot)|(Hne & Hdb & Hnot)].
      + left. rewrite Hfin. now repeat split.
      + right. now rewrite Hid.
    - split; [|exact Hhi]. intros Hc. split; [|congruence].
      destruct Hreq as [Hreq|(id & _ & _ & _ & Hc' & _)]; [exact Hreq | congruence]. }
  destruct c as [status now|result|arg|t a| |event| |w| |]; cbn [perform selects ignores_connection].
  - destruct (status_update_facts remote status now self)
      as (Hs & Hws & Hurl & Hrate & Hdb & Hnot & Hreq & Hhi).
    split; [now split|]. split; [left; now repeat split|].
    split; [|exact Hhi]. intros _ Hc. split; [now apply Hreq | congruence].
  - destruct (klippy_ready_facts result self) as ((x & Hfin) & Hreq & Hdb & Hnot).
    rewrite Hfin. split; [now split|]. split; [left; now repeat split|].
    split; [|exact I]. intros _ Hc. now split.
  - destruct (Hsel arg) as (Hcfg & Hrec & Hoff & Hhi).
    split; [exact Hcfg|]. split.
    + destruct Hrec as [Hrec|Hrec]; [now left | right; now split].
    + split; [intros _; exact Hoff | now left].
  - destruct (then_ret_tt (_handle_spool_id_request remote t a) self) as [-> ->].
    destruct (spool_id_request_facts remote t a self) as [-> ->].
    destruct t.
    + split; [now split|]. split; [left; now repeat split|].
      split; [intros _ Hc; now split | now left].
    + destruct (Hsel (Id a)) as (Hcfg & Hrec & Hoff & Hhi).
      split; [exact Hcfg|]. split.
      * destruct Hrec as [Hrec|Hrec]; [now left | right; now split].
      * split; [intros _; exact Hoff | now left].
  - destruct (flush_facts remote self)
      as (_ & (b & x & Hfin & _) & Hdb & Hnot & Hreq & _).
    rewrite Hdb, Hnot, Hfin. split; [now split|]. split; [left; now repeat split|].
    split; [|now left]. intros _ Hc. split; [|exact Hc].
    destruct Hreq as [Hreq|(id & _ & _ & Hc' & _)]; [exact Hreq | congruence].
  - destruct (decode_facts event self) as [-> Htr].
    split; [now split|].
    split; [left; destruct Htr as [-> | ->]; now repeat split|].
    split; [|now left]. intros _ Hc.
    split; [destruct Htr as [-> | ->]; reflexivity | exact Hc].
  - split; [|split; [|split; [discriminate|]]].
    + destruct (spool_id self) as [id|] eqn:Hs.
      * rewrite (check_selected remote self id Hs). cbn [final].
        destruct (_ =? 404); now split.
      * rewrite (check_unselected remote self Hs). now split.
    + destruct (spool_id self) as [id|] eqn:Hs.
      * rewrite (check_selected remote self id Hs). cbn [final trace].
        destruct (_ =? 404).
        -- right. now repeat split.
        -- left. rewrite Hs. destruct (has_error _); now repeat split.
      * rewrite (check_unselected remote self Hs). left. now repeat split.
    + destruct (spool_id self) as [id|] eqn:Hs.
      * rewrite (check_selected remote self id Hs). cbn [final].
        destruct (_ =? 404); now left.
      * rewrite (check_unselected remote self Hs). now left.
  - destruct (then_ret_tt (_proxy_spoolman_request remote w) self) as [-> ->].
    destruct (proxy_facts remote self w) as (-> & Hdb & Hnot & Hreq).
    split; [now split|]. split; [left; now repeat split|].
    split; [|now left]. intros _ Hc. split; [now apply Hreq | exact Hc].
  - rewrite websocket_connected_exact. cbn [final trace].
    split; [now split|]. split; [|split; [discriminate | now left]].
    left. cbn [spool_id set_error_logged set_ws_connected].
    destruct (spool_id self); now repeat split.
  - unfold websocket_closed. run.
    split; [now split|]. split; [left; now repeat split|].
    split; [|now left]. now intros _ _.
Qed.

(** ** Invariants over sequences of calls *)

Lemma persist_db_writes (t : list effect) :
  forall db : gmap (string * string) (option Z),
    persist t db
    = fold_left (fun db w => insert_item w.1.1 w.1.2 w.2 db) (db_writes t) db.
Proof.
  unfold persist, db_writes.
  induction t as [|e t IH]; intros db; [reflexivity|].
  destruct e; cbn [fold_left omap]; apply IH.
Qed.

Lemma persist_app (t1 t2 : list effect) (db : gmap (string * string) (option Z)) :
  persist (t1 ++ t2) db = persist t2 (persist t1 db).
Proof. unfold persist. apply fold_left_app. Qed.

(** X16.  The database follows the selection.  If the stored spool id is
    the selected one, it still is after any sequence of calls, once the
    writes of the calls have reached the database; [component_init] on
    that database therefore starts from the selection the component had. *)
Theorem X16_database_holds_the_selection
    (calls : list ((http_request -> HttpResponse) * call)) (self restarted : SpoolManager)
    (db : gmap (string * string) (option Z)) :
  get_item db DB_NAMESPACE ACTIVE_SPOOL_KEY None = spool_id self ->
  get_item (persist (run_calls calls self).2 db) DB_NAMESPACE ACTIVE_SPOOL_KEY None
  = spool_id (run_calls calls self).1
  /\ spool_id (final (component_init (persist (run_calls calls self).2 db) restarted))
     = spool_id (run_calls calls self).1.
Proof.
  intros Hdb.
  assert (H : get_item (persist (run_calls calls self).2 db)
                DB_NAMESPACE ACTIVE_SPOOL_KEY None
              = spool_id (run_calls calls self).1).
  { revert self db Hdb.
    induction calls as [|[remote c] rest IH]; intros self db Hdb; [exact Hdb|].
    cbn [run_calls fst snd]. rewrite persist_app. apply IH.
    destruct (perform_shape remote c self) as (_ & Hrec & _).
    rewrite persist_db_writes.
    destruct Hrec as [(Hs & -> & _)|(_ & -> & _)]; cbn [fold_left fst snd].
    - now rewrite Hs.
    - unfold get_item, insert_item. now rewrite lookup_insert_eq. }
  split; [exact H|]. unfold component_init. run. exact H.
Qed.

Lemma X16_witness :
  get_item (persist (run_calls [(answer 200 false "", SelectSpool (Id (Some 4)));
                                (answer 404 true "Not Found", Flush);
                                (answer 200 false "", SelectSpool MISSING);
                                (answer 200 false "", SpoolIdRequest POST (Some 9))]
                       fresh).2 ∅) DB_NAMESPACE ACTIVE_SPOOL_KEY None
  = Some 9.
Proof.
  destruct (X16_database_holds_the_selection
              [(answer 200 false "", SelectSpool (Id (Some 4)));
               (answer 404 true "Not Found", Flush);
               (answer 200 false "", SelectSpool MISSING);
               (answer 200 false "", SpoolIdRequest POST (Some 9))]
              fresh fresh ∅) as [H _].
  - reflexivity.
  - rewrite H. vm_compute. reflexivity.
Defined.

(** X17.  Over any sequence of calls every change of selection is written
    to the database and announced, in that order and with the same id:
    the writes and the notifications carry the same ids in the same order,
    all under the one database key and the one event name, and the last of
    them is the id that ends up selected; without any, the selection is the
    one the sequence started from. *)
Theorem X17_every_change_is_persisted_and_announced
    (calls : list ((http_request -> HttpResponse) * call)) (self : SpoolManager) :
  exists ids : list (option Z),
    db_writes (run_calls calls self).2
    = (fun v => (DB_NAMESPACE, ACTIVE_SPOOL_KEY, v)) <$> ids
    /\ notifications (run_calls calls self).2
       = (fun v => (ACTIVE_SPOOL_SET, v)) <$> ids
    /\ last (spool_id self :: ids) = Some (spool_id (run_calls calls self).1).
Proof.
  revert self. induction calls as [|[remote c] rest IH]; intros self.
  - exists []. now repeat split.
  - cbn [run_calls fst snd].
    destruct (IH (final (perform remote c self))) as (ids & Hdb & Hnot & Hlast).
    destruct (trace_readers_app (trace (perform remote c self))
                (run_calls rest (final (perform remote c self))).2)
      as (_ & -> & -> & _).
    destruct (perform_shape remote c self) as (_ & Hrec & _).
    destruct Hrec as [(Hs & -> & ->)|(_ & -> & ->)].
    + exists ids. rewrite Hdb, Hnot. repeat split.
      rewrite <- Hlast, Hs. reflexivity.
    + exists (spool_id (final (perform remote c self)) :: ids).
      rewrite Hdb, Hnot. repeat split. rewrite <- Hlast. reflexivity.
Qed.

(** X18.  While the websocket is down nothing is sent: over any sequence of
    calls that holds neither the opening of the websocket nor the liveness
    check (the one coroutine that does not look at the connection flag),
    run from a state that is not connected, no request is made and the
    component is still not connected at the end. *)
Theorem X18_no_request_while_disconnected
    (calls : list ((http_request -> HttpResponse) * call)) (self : SpoolManager) :
  ws_connected self = false ->
  Forall (fun rc => ignores_connection rc.2 = false) calls ->
  requests (run_calls calls self).2 = []
  /\ ws_connected (run_calls calls self).1 = false.
Proof.
  intros Hc Hall. revert self Hc.
  induction Hall as [|[remote c] rest Hig _ IH]; intros self Hc; [now split|].
  cbn [run_calls fst snd] in *.
  destruct (perform_shape remote c self) as (_ & _ & Hoff & _).
  destruct (Hoff Hig Hc) as [Hreq Hc'].
  destruct (IH _ Hc') as [Hreq' Hfin].
  destruct (trace_readers_app (trace (perform remote c self))
              (run_calls rest (final (perform remote c self))).2) as (-> & _).
  now rewrite Hreq, Hreq'.
Qed.

Lemma X18_witness :
  requests (run_calls [(answer 200 false "", StatusUpdate (toolhead_at 9%float) 60000000);
                       (answer 200 false "", SelectSpool (Id (Some 2)));
                       (answer 200 false "", Flush);
                       (answer 200 false "",
                        ProxyRequest {| request_method := "GET"; path := "/v1/spool";
                                        query := None; body := None |})]
              offline).2 = [].
Proof.
  apply (X18_no_request_while_disconnected
           [(answer 200 false "", StatusUpdate (toolhead_at 9%float) 60000000);
            (answer 200 false "", SelectSpool (Id (Some 2)));
            (answer 200 false "", Flush);
            (answer 200 false "",
             ProxyRequest {| request_method := "GET"; path := "/v1/spool";
                             query := None; body := None |})] offline).
  - reflexivity.
  - repeat constructor.
Defined.

(** X19.  No sequence of calls changes the configuration (the base address
    and the sync rate).  The selection changes only through
    [set_active_spool] and its callers: a sequence without a selection
    call, a POST to the selection endpoint or a liveness check leaves the
    selected id as it was, writes nothing to the database and announces
    nothing; events, flushes and status updates change the selection only
    by the tasks they spawn. *)
Theorem X19_selection_changes_only_through_select
    (calls : list ((http_request -> HttpResponse) * call)) (self : SpoolManager) :
  (spoolman_url (run_calls calls self).1 = spoolman_url self
   /\ sync_rate_seconds (run_calls calls self).1 = sync_rate_seconds self)
  /\ (Forall (fun rc => selects rc.2 = false) calls ->
      spool_id (run_calls calls self).1 = spool_id self
      /\ db_writes (run_calls calls self).2 = []
      /\ notifications (run_calls calls self).2 = []).
Proof.
  split.
  - revert self. induction calls as [|[remote c] rest IH]; intros self; [now split|].
    cbn [run_calls fst snd].
    destruct (perform_shape remote c self) as ((Hu & Hr) & _).
    destruct (IH (final (perform remote c self))) as [-> ->]. now split.
  - intros Hall. revert self.
    induction Hall as [|[remote c] rest Hsel _ IH]; intros self; [now repeat split|].
    cbn [run_calls fst snd] in *.
    destruct (perform_shape remote c self) as (_ & Hrec & _).
    destruct Hrec as [(Hs & Hdb & Hnot)|(Hsel' & _)]; [|congruence].
    destruct (IH (final (perform remote c self))) as (Hs' & Hdb' & Hnot').
    destruct (trace_readers_app (trace (perform remote c self))
                (run_calls rest (final (perform remote c self))).2)
      as (_ & -> & -> & _).
    rewrite Hs', Hs, Hdb, Hdb', Hnot, Hnot'. now repeat split.
Qed.

Lemma X19_witness :
  spool_id (run_calls [(answer 404 true "Not Found", Flush);
                       (answer 200 false "", Event (JDict spool_1_deleted));
                       (answer 200 false "", StatusUpdate (toolhead_at 9%float) 60000000)]
              tracking).1 = Some 1.
Proof.
  destruct (proj2 (X19_selection_changes_only_through_select
              [(answer 404 true "Not Found", Flush);
               (answer 200 false "", Event (JDict spool_1_deleted));
               (answer 200 false "", StatusUpdate (toolhead_at 9%float) 60000000)]
              tracking)) as (H & _).
  - repeat constructor.
  - exact H.
Defined.

(** ** Reading the websocket *)

Lemma decode_message_facts (loads : string -> option json) (message : string)
    (self : SpoolManager) :
  final (_decode_message loads message self) = self
  /\ (trace (_decode_message loads message self) = []
      \/ trace (_decode_message loads message self)
         = [CreateTask (SetActiveSpoolTask MISSING)]).
Proof.
  unfold _decode_message. destruct (loads message) as [event|].
  - apply decode_facts.
  - split; [reflexivity | now left].
Qed.

Lemma read_facts (loads : string -> option json) (frames : list frame) :
  forall self : SpoolManager,
    (res (_read_messages loads frames self) = Ok true ->
     final (_read_messages loads frames self) = set_ws_connected false self)
    /\ (res (_read_messages loads frames self) <> Ok true ->
        final (_read_messages loads frames self) = self)
    /\ requests (trace (_read_messages loads frames self)) = []
    /\ db_writes (trace (_read_messages loads frames self)) = []
    /\ notifications (trace (_read_messages loads frames self)) = []
    /\ Forall (fun t => t = SetActiveSpoolTask MISSING)
         (spawned (trace (_read_messages loads frames self))).
Proof.
  induction frames as [|f rest IH]; intros self.
  - cbn. repeat split; auto. discriminate.
  - destruct f as [message| |]; cbn [_read_messages].
    + destruct (decode_message_facts loads message self) as [Hfin Htr].
      destruct (IH self) as (H1 & H2 & H3 & H4 & H5 & H6).
      run. rewrite Hfin.
      destruct (res (_decode_message loads message self)); cbn [res final trace].
      * destruct (trace_readers_app (trace (_decode_message loads message self))
                    (trace (_read_messages loads rest self))) as (-> & -> & -> & ->).
        rewrite H3, H4, H5.
        destruct Htr as [-> | ->]; cbn; repeat split; auto.
      * destruct Htr as [-> | ->]; cbn; repeat split; auto; try discriminate.
    + apply IH.
    + unfold websocket_closed. run. repeat split; auto. congruence.
Qed.

(** X20.  Reading the websocket never sends a request, writes to the
    database or notifies, and spawns nothing but clears of the active
    spool.  [_read_messages] returns only on the end of the stream, with
    the connection flag down and nothing else changed; when it is left by
    an exception of the decoder, or is still waiting for a frame, the state
    is as it was, the connection flag with it.  Binary frames are skipped,
    and whatever follows the end of the stream is never read. *)
Theorem X20_reading_ends_only_with_the_stream
    (loads : string -> option json) (frames : list frame) (self : SpoolManager) :
  ((res (_read_messages loads frames self) = Ok true ->
    final (_read_messages loads frames self) = set_ws_connected false self)
   /\ (res (_read_messages loads frames self) <> Ok true ->
       final (_read_messages loads frames self) = self)
   /\ requests (trace (_read_messages loads frames self)) = []
   /\ db_writes (trace (_read_messages loads frames self)) = []
   /\ notifications (trace (_read_messages loads frames self)) = []
   /\ Forall (fun t => t = SetActiveSpoolTask MISSING)
        (spawned (trace (_read_messages loads frames self))))
  /\ (forall after : list frame,
         _read_messages loads (frames ++ EndOfStream :: after) self
         = _read_messages loads (frames ++ [EndOfStream]) self)
  /\ _read_messages loads (BinaryFrame :: frames) self
     = _read_messages loads frames self.
Proof.
  split; [apply read_facts|]. split; [|reflexivity].
  intros after. revert self.
  induction frames as [|f rest IH]; intros self; [reflexivity|].
  destruct f as [message| |]; cbn [app _read_messages]; [|apply IH|reflexivity].
  run. destruct (res (_decode_message loads message self)); [|reflexivity].
  now rewrite IH.
Qed.

Lemma X20_witness :
  final (_read_messages (fun _ => Some (JDict vendor_1_deleted))
           [BinaryFrame; TextFrame "{...}"; EndOfStream] tracking)
  = set_ws_connected false tracking
  /\ final (_read_messages (fun _ => None) [TextFrame "oops"; EndOfStream] tracking)
     = tracking.
Proof.
  pose proof (X20_reading_ends_only_with_the_stream
                (fun _ => Some (JDict vendor_1_deleted))
                [BinaryFrame; TextFrame "{...}"; EndOfStream] tracking)
    as ((Hend & _) & _).
  pose proof (X20_reading_ends_only_with_the_stream (fun _ => None)
                [TextFrame "oops"; EndOfStream] tracking)
    as ((_ & Hraise & _) & _).
  split.
  - apply Hend. vm_compute. reflexivity.
  - apply Hraise. vm_compute. discriminate.
Defined.

(** ** The reconnection loop *)

Lemma sleeps_app (e1 e2 : list loop_event) :
  sleeps (e1 ++ e2) = (sleeps e1 + sleeps e2)%nat.
Proof. unfold sleeps. now rewrite omap_app, length_app. Qed.

Lemma connect_failures_app (e1 e2 : list loop_event) :
  connect_failures (e1 ++ e2) = (connect_failures e1 ++ connect_failures e2)%list.
Proof. unfold connect_failures. now rewrite omap_app. Qed.

Lemma did_is_quiet (t : list effect) :
  sleeps (Did <$> t) = 0%nat /\ connect_failures (Did <$> t) = [].
Proof.
  unfold sleeps, connect_failures. induction t as [|e t [IH1 IH2]]; [done|].
  cbn [fmap list_fmap omap]. now split.
Qed.

Lemma connecting_is_quiet (b : bool) :
  sleeps (if b then [LogConnecting] else []) = 0%nat
  /\ connect_failures (if b then [LogConnecting] else []) = [].
Proof. now destruct b. Qed.

(** A refused attempt, with no shutdown in sight. *)
Lemma round_refused (loads : string -> option json) (r : round) (rest : list round)
    (vars : loop_vars) (self : SpoolManager) (e : py_exception) :
  met r = Refused e -> closing_at_end r = false -> closing_after_sleep r = false ->
  _connect_websocket loads (r :: rest) vars self
  = {| ended := ended (_connect_websocket loads rest
                         {| log_connect := false; last_err := e |} self);
       manager := manager (_connect_websocket loads rest
                             {| log_connect := false; last_err := e |} self);
       events := (if log_connect vars then [LogConnecting] else [])
                 ++ (if bool_decide (last_err vars = e) then []
                     else [LogConnectFailed e])
                 ++ [Sleep]
                 ++ events (_connect_websocket loads rest
                              {| log_connect := false; last_err := e |} self) |}.
Proof.
  intros Hm Hc Hs. cbn [_connect_websocket]. rewrite Hm, Hc, Hs.
  destruct (decide (last_err vars = e)) as [Heq|Hne].
  - rewrite (bool_decide_true _ Heq). subst e.
    rewrite !bool_decide_false by (intros H; now apply H). cbn [orb].
    now rewrite app_nil_l.
  - rewrite (bool_decide_false _ Hne).
    replace (bool_decide (exc_type (last_err vars) ≠ exc_type e)
             || bool_decide (exc_args (last_err vars) ≠ exc_args e)) with true.
    + now rewrite <- !app_assoc.
    + symmetry. apply orb_true_iff.
      destruct (decide (exc_type (last_err vars) = exc_type e)) as [Ht|Ht];
        [|left; now apply bool_decide_eq_true].
      right. apply bool_decide_eq_true. intros Ha. apply Hne.
      destruct (last_err vars), e; cbn in *; congruence.
Qed.

(** X21.  A failure to connect is logged once, however often it repeats:
    over any number of attempts in a row that are refused with the same
    exception (same type, same [args]), with no shutdown, the failure is
    logged at the first attempt only, and not even there when the loop
    already remembers that exception, as it does [Exception()] from the
    start; the state is untouched and every attempt is followed by one
    sleep. *)
Theorem X21_repeated_connect_failure_is_logged_once
    (loads : string -> option json) (e : py_exception) (n : nat)
    (vars : loop_vars) (self : SpoolManager) :
  manager (_connect_websocket loads
             (replicate n {| met := Refused e; closing_at_end := false;
                             closing_after_sleep := false |}) vars self) = self
  /\ connect_failures
       (events (_connect_websocket loads
                  (replicate n {| met := Refused e; closing_at_end := false;
                                  closing_after_sleep := false |}) vars self))
     = (if (0 <? n)%nat && negb (bool_decide (last_err vars = e)) then [e] else [])
  /\ sleeps
       (events (_connect_websocket loads
                  (replicate n {| met := Refused e; closing_at_end := false;
                                  closing_after_sleep := false |}) vars self)) = n
  /\ ended (_connect_websocket loads
              (replicate n {| met := Refused e; closing_at_end := false;
                              closing_after_sleep := false |}) vars self)
     = Looping (if (0 <? n)%nat then {| log_connect := false; last_err := e |}
                else vars).
Proof.
  revert vars. induction n as [|n IH]; intros vars; [now repeat split|].
  cbn [replicate].
  rewrite (round_refused loads
             {| met := Refused e; closing_at_end := false;
                closing_after_sleep := false |}
             _ vars self e eq_refl eq_refl eq_refl).
  cbn [manager events ended].
  destruct (IH {| log_connect := false; last_err := e |}) as (Hm & Hf & Hs & He).
  cbn [last_err] in Hf. rewrite bool_decide_true in Hf by reflexivity.
  rewrite andb_false_r in Hf.
  rewrite !connect_failures_app, !sleeps_app, Hm, Hf, Hs.
  destruct (connecting_is_quiet (log_connect vars)) as [-> ->].
  repeat split.
  - destruct (bool_decide (last_err vars = e)); reflexivity.
  - destruct (bool_decide (last_err vars = e)); reflexivity.
  - rewrite He. now destruct n.
Qed.

Lemma opened_run (loads : string -> option json) (frames : list frame)
    (self : SpoolManager) :
  (websocket_connected;; _read_messages loads frames) self
  = {| res := res (_read_messages loads frames (final (websocket_connected self)));
       final := final (_read_messages loads frames (final (websocket_connected self)));
       trace := trace (websocket_connected self)
                ++ trace (_read_messages loads frames
                            (final (websocket_connected self))) |}.
Proof.
  run. rewrite websocket_connected_exact. cbn [res final trace].
  destruct (_read_messages loads frames _) as [[b|err] fin tr]; reflexivity.
Qed.

(** X22.  An exception of the decoder ends the connection task for good.
    When, on an open websocket, [_read_messages] is left by an exception
    (as on a text frame that is not JSON), the exception leaves
    [_connect_websocket] too: the loop neither sleeps nor makes another
    attempt, whatever attempts would have followed, and the component is
    left with the connection flag up. *)
Theorem X22_decoder_exception_ends_the_connection_task
    (loads : string -> option json) (r : round) (rest : list round)
    (vars : loop_vars) (self : SpoolManager) (frames : list frame) (ex : exn) :
  met r = Opened frames ->
  res (_read_messages loads frames (final (websocket_connected self))) = Raise ex ->
  ended (_connect_websocket loads (r :: rest) vars self) = Escaped ex
  /\ manager (_connect_websocket loads (r :: rest) vars self)
     = final (websocket_connected self)
  /\ ws_connected (manager (_connect_websocket loads (r :: rest) vars self)) = true
  /\ sleeps (events (_connect_websocket loads (r :: rest) vars self)) = 0%nat
  /\ _connect_websocket loads (r :: rest) vars self
     = _connect_websocket loads [r] vars self.
Proof.
  intros Hm Hraise. cbn [_connect_websocket]. rewrite Hm, !opened_run, Hraise.
  cbn [res final trace ended manager events].
  destruct (read_facts loads frames (final (websocket_connected self)))
    as (_ & Hfin & _).
  rewrite Hfin by (rewrite Hraise; discriminate).
  rewrite sleeps_app.
  destruct (connecting_is_quiet (log_connect vars)) as [-> _].
  destruct (did_is_quiet (trace (websocket_connected self)
                          ++ trace (_read_messages loads frames
                                      (final (websocket_connected self))))) as [-> _].
  rewrite websocket_connected_exact. now repeat split.
Qed.

Lemma X22_witness :
  ended (_connect_websocket (fun _ => None)
           [{| met := Opened [TextFrame "not json"; EndOfStream];
               closing_at_end := false; closing_after_sleep := false |};
            {| met := Opened [EndOfStream];
               closing_at_end := false; closing_after_sleep := false |}]
           loop_start offline) = Escaped JSONDecodeError
  /\ ws_connected (manager (_connect_websocket (fun _ => None)
           [{| met := Opened [TextFrame "not json"; EndOfStream];
               closing_at_end := false; closing_after_sleep := false |};
            {| met := Opened [EndOfStream];
               closing_at_end := false; closing_after_sleep := false |}]
           loop_start offline)) = true.
Proof.
  pose proof (X22_decoder_exception_ends_the_connection_task (fun _ => None)
                {| met := Opened [TextFrame "not json"; EndOfStream];
                   closing_at_end := false; closing_after_sleep := false |}
                [{| met := Opened [EndOfStream];
                    closing_at_end := false; closing_after_sleep := false |}]
                loop_start offline [TextFrame "not json"; EndOfStream]
                JSONDecodeError eq_refl) as H.
  destruct H as (H1 & _ & H2 & _); [vm_compute; reflexivity|].
  split; [exact H1 | exact H2].
Defined.

(** X23.  A shutdown requested by the end of an attempt stops the loop at
    once: whatever the attempt met, the loop does not sleep and makes no
    further attempt, whatever attempts would have followed. *)
Theorem X23_shutdown_during_attempt_stops_without_retry
    (loads : string -> option json) (r : round) (rest : list round)
    (vars : loop_vars) (self : SpoolManager) :
  closing_at_end r = true ->
  sleeps (events (_connect_websocket loads (r :: rest) vars self)) = 0%nat
  /\ (forall vars', ended (_connect_websocket loads (r :: rest) vars self)
                    <> Looping vars')
  /\ _connect_websocket loads (r :: rest) vars self
     = _connect_websocket loads [r] vars self.
Proof.
  intros Hc. cbn [_connect_websocket]. rewrite Hc.
  destruct (connecting_is_quiet (log_connect vars)) as [Hq _].
  destruct (met r) as [e| |frames].
  - destruct (_ || _); cbn [events ended]; rewrite ?sleeps_app, ?Hq;
      now repeat split.
  - cbn [events ended]. rewrite Hq. now repeat split.
  - destruct (res _) as [[]|err]; cbn [events ended]; rewrite sleeps_app, Hq;
      match goal with |- context [Did <$> ?t] =>
        destruct (did_is_quiet t) as [-> _] end;
      now repeat split.
Qed.

Lemma X23_witness :
  sleeps (events (_connect_websocket (fun _ => None)
                    [{| met := Opened [EndOfStream]; closing_at_end := true;
                        closing_after_sleep := false |};
                     {| met := Opened [EndOfStream]; closing_at_end := false;
                        closing_after_sleep := false |}]
                    loop_start tracking)) = 0%nat.
Proof.
  apply (X23_shutdown_during_attempt_stops_without_retry (fun _ => None)
           {| met := Opened [EndOfStream]; closing_at_end := true;
              closing_after_sleep := false |}).
  reflexivity.
Defined.

(** X24.  A connection resets what the loop remembers of the last failure.
    When an attempt is refused, the next one connects and the stream later
    ends, and the attempt after that is refused with the very same
    exception, that failure is logged both times; the loop sleeps after
    each of the three turns, and the component ends not connected. *)
Theorem X24_connection_resets_failure_memory
    (loads : string -> option json) (e : py_exception) (frames : list frame)
    (self : SpoolManager) :
  e <> blank_exception ->
  res (_read_messages loads frames (final (websocket_connected self))) = Ok true ->
  connect_failures
    (events (_connect_websocket loads
               [undisturbed (Refused e); undisturbed (Opened frames);
                undisturbed (Refused e)] loop_start self)) = [e; e]
  /\ sleeps
       (events (_connect_websocket loads
                  [undisturbed (Refused e); undisturbed (Opened frames);
                   undisturbed (Refused e)] loop_start self)) = 3%nat
  /\ ws_connected
       (manager (_connect_websocket loads
                   [undisturbed (Refused e); undisturbed (Opened frames);
                    undisturbed (Refused e)] loop_start self)) = false
  /\ ended (_connect_websocket loads
              [undisturbed (Refused e); undisturbed (Opened frames);
               undisturbed (Refused e)] loop_start self)
     = Looping {| log_connect := false; last_err := e |}.
Proof.
  intros Hne Hend.
  rewrite (round_refused loads (undisturbed (Refused e)) _ loop_start self e
             eq_refl eq_refl eq_refl).
  cbn [manager events ended]. cbn [_connect_websocket undisturbed met closing_at_end
                                   closing_after_sleep log_connect last_err].
  rewrite !opened_run, Hend. cbn [res final trace manager events ended].
  destruct (read_facts loads frames (final (websocket_connected self)))
    as (Hfin & _).
  rewrite (Hfin Hend).
  rewrite (bool_decide_false (blank_exception = e)) by congruence.
  replace (bool_decide (exc_type blank_exception ≠ exc_type e)
           || bool_decide (exc_args blank_exception ≠ exc_args e)) with true.
  2:{ symmetry. apply orb_true_iff.
      destruct (decide (exc_type blank_exception = exc_type e)) as [Ht|Ht];
        [|left; now apply bool_decide_eq_true].
      right. apply bool_decide_eq_true. intros Ha. apply Hne.
      destruct e; cbn in *. subst. reflexivity. }
  cbn [manager events ended].
  rewrite !connect_failures_app, !sleeps_app.
  match goal with |- context [Did <$> ?t] =>
    destruct (did_is_quiet t) as [-> ->] end.
  now repeat split.
Qed.

Lemma X24_witness :
  connect_failures
    (events (_connect_websocket (fun _ => None)
               [undisturbed (Refused {| exc_type := "ConnectionRefusedError";
                                        exc_args := [ArgInt 111;
                                                     ArgStr "Connection refused"] |});
                undisturbed (Opened [BinaryFrame; EndOfStream]);
                undisturbed (Refused {| exc_type := "ConnectionRefusedError";
                                        exc_args := [ArgInt 111;
                                                     ArgStr "Connection refused"] |})]
               loop_start tracking))
  = [{| exc_type := "ConnectionRefusedError";
        exc_args := [ArgInt 111; ArgStr "Connection refused"] |};
     {| exc_type := "ConnectionRefusedError";
        exc_args := [ArgInt 111; ArgStr "Connection refused"] |}].
Proof.
  apply (X24_connection_resets_failure_memory (fun _ => None)
           {| exc_type := "ConnectionRefusedError";
              exc_args := [ArgInt 111; ArgStr "Connection refused"] |}
           [BinaryFrame; EndOfStream] tracking).
  - discriminate.
  - vm_compute. reflexivity.
Defined.

(** X25.  A new connection looks for the selected spool: opening the
    websocket raises the connection flag, clears the log suppression and
    spawns one liveness check when a spool is selected, none otherwise;
    when that check runs and the server answers 404, the selection is
    cleared, written to the database as [None] and announced, with the
    connection flag still up. *)
Theorem X25_reconnect_detects_deleted_spool
    (remote : http_request -> HttpResponse) (self : SpoolManager) :
  (spool_id self = None -> spawned (trace (websocket_connected self)) = [])
  /\ (forall id : Z,
         spool_id self = Some id ->
         status_code (remote (check_request self id)) = 404 ->
         spawned (trace (websocket_connected self)) = [CheckSpoolDeletedTask]
         /\ spool_id (final (run_task remote CheckSpoolDeletedTask
                               (final (websocket_connected self)))) = None
         /\ ws_connected (final (run_task remote CheckSpoolDeletedTask
                                   (final (websocket_connected self)))) = true
         /\ db_writes (trace (run_task remote CheckSpoolDeletedTask
                                (final (websocket_connected self))))
            = [(DB_NAMESPACE, ACTIVE_SPOOL_KEY, None)]
         /\ notifications (trace (run_task remote CheckSpoolDeletedTask
                                    (final (websocket_connected self))))
            = [(ACTIVE_SPOOL_SET, None)]).
Proof.
  rewrite websocket_connected_exact. cbn [final trace]. split.
  - intros ->. reflexivity.
  - intros id Hs H404. rewrite Hs. cbn [run_task].
    rewrite (check_selected remote
               (set_error_logged false (set_ws_connected true self)) id Hs).
    change (check_request (set_error_logged false (set_ws_connected true self)) id)
      with (check_request self id).
    rewrite H404. cbn [Z.eqb Pos.eqb final trace]. now repeat split.
Qed.

Lemma X25_witness :
  spawned (trace (websocket_connected fresh)) = []
  /\ spool_id (final (run_task (answer 404 true "Not Found") CheckSpoolDeletedTask
                        (final (websocket_connected offline)))) = None.
Proof.
  pose proof (X25_reconnect_detects_deleted_spool (answer 404 true "Not Found") fresh)
    as [Hnone _].
  pose proof (X25_reconnect_detects_deleted_spool (answer 404 true "Not Found") offline)
    as [_ Hsel].
  split.
  - apply Hnone. reflexivity.
  - destruct (Hsel 1) as (_ & H & _); [reflexivity | reflexivity | exact H].
Defined.

(** ** The accumulator over status updates *)

(** A flush that the server does not accept leaves the accumulator alone. *)
Lemma flush_failed_pending (remote : http_request -> HttpResponse)
    (self : SpoolManager) :
  (forall req, has_error (remote req) = true) ->
  extruded (final (track_filament_usage remote self)) = extruded self
  /\ _highest_epos (final (track_filament_usage remote self)) = _highest_epos self.
Proof.
  intros Hfail. destruct (flush_ready self) eqn:Hready.
  - apply flush_ready_selected in Hready as ([id Hs] & He & Hc).
    rewrite (flush_sends remote self id Hs He Hc). cbn [final]. rewrite Hfail.
    destruct (_ =? 404); [|destruct (_error_logged self)]; split; reflexivity.
  - rewrite (flush_idle remote self Hready). split; reflexivity.
Qed.







